(** * GreenLeaf Organics (Norwood store): order engine and daily summary

    A shallow embedding of [src/main.py] (and of the order construction of
    [src/app.py]) with the properties of the order-validation engine and of
    the daily-summary engine.

    Conventions of the embedding.
    - Python [int] is [Z] and Python [float] is a binary64 float; quantities
      and stock levels are ints, prices and totals are numbers of either
      kind, with Python's arithmetic between them.
    - A Cosmos container is a finite map from the document ["id"] to the
      document: [read_item] is a lookup that raises when the key is absent,
      [replace_item] rewrites an existing key, [upsert_item] inserts or
      overwrites.  The [products] map is the ["norwood"] partition.
    - Every function threads the [world] (the two containers, the SQL table,
      the files written by [pdf_utils], standard output) explicitly and
      returns an [outcome]: a returned value or a raised exception. *)

From stdpp Require Import gmap strings list fin_maps pretty sorting.
From Stdlib Require Import PrimFloat SpecFloat FloatOps.

Open Scope Z_scope.

#[local] Set Warnings "-inexact-float".

#[local] Set Warnings "-clear-no-such-hyp".

(** * Data model *)

(** A Python number: an [int] or a [float]. *)
Inductive number :=
  | Int (z : Z)
  | Float (x : float).

(** A product document of the [products] container (its ["id"] is the key
    under which the container holds it). *)
Record product := Product {
  name : string;
  category : string;
  price : number;
  stock_quantity : Z;
  supplier_id : string
}.

(** A line item, as [submit] and [customer_submit] build it. *)
Record item := Item {
  product_id : string;
  product_name : string;
  quantity : Z;
  unit_price : number
}.

(** An order document, as [submit] and [customer_submit] build it. *)
Record order := Order {
  order_id : string;
  order_date : string;
  customer_name : string;
  customer_email : string;
  items : list item;
  order_total : number;
  store_id : string
}.

(** The dictionary returned by [generate_daily_summary]. *)
Record summary := Summary {
  date : string;
  total_orders : nat;
  total_revenue : number;
  most_popular_product : option string
}.

(** A file written by [pdf_utils]. *)
Inductive artifact :=
  | InvoicePdf (o : order)
  | SummaryPdf (s : summary).

(** Exceptions: a Cosmos read or replace of an absent document, a failure of
    the SQL driver with its text, a failure of [pdf_utils] with its text, and
    Python's [OverflowError] for an int too large to convert to a float. *)
Inductive exn :=
  | CosmosResourceNotFoundError (key : string)
  | SqlError (text : string)
  | PdfError (text : string)
  | OverflowError.

Inductive outcome (A : Type) :=
  | Return (a : A)
  | Raise (e : exn).
Arguments Return {A} a.
Arguments Raise {A} e.

(** ** Python arithmetic *)

(** The conversion of an int to a float: the nearest binary64 value, ties to
    even, and [OverflowError] when the int is out of range. *)
Definition float_of_int (z : Z) : outcome float :=
  let x := SF2Prim (binary_normalize prec emax z 0 false) in
  if is_infinity x then Raise OverflowError else Return x.

Definition as_float (n : number) : outcome float :=
  match n with
  | Int z => float_of_int z
  | Float x => Return x
  end.

(** [a + b] and [a * b]: exact on two ints; otherwise both operands are taken
    as floats and the binary64 operation is applied. *)
Definition py_add (a b : number) : outcome number :=
  match a, b with
  | Int x, Int y => Return (Int (x + y))
  | _, _ =>
      match as_float a, as_float b with
      | Return x, Return y => Return (Float (x + y))
      | Raise e, _ => Raise e
      | _, Raise e => Raise e
      end
  end.

Definition py_mul (a b : number) : outcome number :=
  match a, b with
  | Int x, Int y => Return (Int (x * y))
  | _, _ =>
      match as_float a, as_float b with
      | Return x, Return y => Return (Float (x * y))
      | Raise e, _ => Raise e
      | _, Raise e => Raise e
      end
  end.

(** [sum(values)], as the language reference has it: the values added one
    by one, from the left, to the int 0.  (CPython from version 3.12 on
    also compensates the rounding errors of a sum of floats; this is not
    modelled.  A sum of ints is exact either way.) *)
Fixpoint py_sum_from (acc : number) (values : list number) : outcome number :=
  match values with
  | [] => Return acc
  | x :: rest =>
      match py_add acc x with
      | Return acc' => py_sum_from acc' rest
      | Raise e => Raise e
      end
  end.

Definition py_sum (values : list number) : outcome number :=
  py_sum_from (Int 0) values.

Record world := World {
  products : gmap string product;
  orders : gmap string order;
  sql_connected : bool;
  daily_summary : list summary;
  pdfs : list artifact;
  stdout : list string
}.

Definition set_products (ps : gmap string product) (w : world) : world :=
  World ps (orders w) (sql_connected w) (daily_summary w) (pdfs w) (stdout w).

Definition set_orders (os : gmap string order) (w : world) : world :=
  World (products w) os (sql_connected w) (daily_summary w) (pdfs w) (stdout w).

Definition set_sql (conn : bool) (rows : list summary) (w : world) : world :=
  World (products w) (orders w) conn rows (pdfs w) (stdout w).

Definition add_pdf (a : artifact) (w : world) : world :=
  World (products w) (orders w) (sql_connected w) (daily_summary w)
        (pdfs w ++ [a]) (stdout w).

Definition print (line : string) (w : world) : world :=
  World (products w) (orders w) (sql_connected w) (daily_summary w)
        (pdfs w) (stdout w ++ [line]).

Definition set_stock (p : product) (q : Z) : product :=
  Product (name p) (category p) (price p) q (supplier_id p).

(** The stock of a product id in a container, when the product exists. *)
Definition stock_of (ps : gmap string product) (pid : string) : option Z :=
  stock_quantity <$> ps !! pid.

(** * Staff stock adjustment *)

(** [adjust_stock]: read, add, clamp at 0, replace. *)
Definition adjust_stock (pid : string) (adjustment : Z) (w : world)
  : world * outcome Z :=
  match products w !! pid with
  | None => (w, Raise (CosmosResourceNotFoundError pid))
  | Some p =>
      let q := stock_quantity p + adjustment in
      let q := if decide (q < 0) then 0 else q in
      (set_products (<[pid := set_stock p q]> (products w)) w, Return q)
  end.

(** * Order validation and placement *)

(** The dictionary returned by [validate_and_place_order]. *)
Inductive result :=
  | Success (warnings : list string) (oid : string) (invoice_filename : string)
  | Error (message : string) (available : Z) (preorder : bool).

Definition only_available (available : Z) : string :=
  "Only " +:+ pretty available +:+ " unit(s) available.".

Definition preorder_warning (requested available : Z) : string :=
  "Pre-order placed for " +:+ pretty (requested - available) +:+ " unit(s)".

Definition low_stock_warning (p : product) : string :=
  "Low stock alert: " +:+ name p +:+ " (" +:+ pretty (stock_quantity p)
    +:+ " left)".

(** How control leaves a turn of the loop over [order["items"]], and the
    loop itself: it falls through to the next statement, the function
    returns from inside the loop, or an exception propagates. *)
Inductive flow :=
  | Fallthrough (warnings : list string)
  | Returned (r : result)
  | Raised (e : exn).

(** The part of a turn between [read_item] and [replace_item]: the
    oversell check, the pre-order warning and the local decrement of the
    freshly read [product]. *)
Definition check_item (allow_preorder : bool) (it : item) (p : product)
    (warnings : list string) : result + product * list string :=
  let available := stock_quantity p in
  let requested := quantity it in
  if decide (available < requested) then
    if allow_preorder then
      inr (set_stock p (stock_quantity p - available),
           warnings ++ [preorder_warning requested available])
    else
      inl (Error (only_available available) available true)
  else
    inr (set_stock p (stock_quantity p - requested), warnings).

(** The part of a turn after [replace_item]: the low-stock alert. *)
Definition alert (p : product) (warnings : list string) : list string :=
  if decide (stock_quantity p < 10) then warnings ++ [low_stock_warning p]
  else warnings.

(** One turn of the loop. *)
Definition process_item (allow_preorder : bool) (it : item)
    (ps : gmap string product) (warnings : list string)
  : gmap string product * flow :=
  match ps !! product_id it with
  | None => (ps, Raised (CosmosResourceNotFoundError (product_id it)))
  | Some p =>
      match check_item allow_preorder it p warnings with
      | inl r => (ps, Returned r)
      | inr (p', warnings') =>
          (<[product_id it := p']> ps, Fallthrough (alert p' warnings'))
      end
  end.

(** The loop; on a [return] or an exception inside it the writes already
    made stay in the container. *)
Fixpoint order_loop (allow_preorder : bool) (its : list item)
    (ps : gmap string product) (warnings : list string)
  : gmap string product * flow :=
  match its with
  | [] => (ps, Fallthrough warnings)
  | it :: rest =>
      match process_item allow_preorder it ps warnings with
      | (ps', Fallthrough warnings') =>
          order_loop allow_preorder rest ps' warnings'
      | stop => stop
      end
  end.

(** Modelled from the spec: [generate_invoice_pdf] of [pdf_utils], which is
    not among the sources, when it returns; the artifact reference is an
    invoice identifier derived from the order id (the callers use the same
    file name).  The call that may raise is [invoice_pdf_or_raise] below. *)
Definition generate_invoice_pdf (o : order) (w : world) : world * string :=
  (add_pdf (InvoicePdf o) w, "invoice_" +:+ order_id o +:+ ".pdf").

(** [validate_and_place_order], the invoice writer returning; with a writer
    that may raise it is [validate_and_place_order_with] below, which agrees
    with this one when the writer returns. *)
Definition validate_and_place_order (o : order) (allow_preorder : bool)
    (w : world) : world * outcome result :=
  match order_loop allow_preorder (items o) (products w) [] with
  | (ps, Returned r) => (set_products ps w, Return r)
  | (ps, Raised e) => (set_products ps w, Raise e)
  | (ps, Fallthrough warnings) =>
      let w := set_products ps w in
      let w := set_orders (<[order_id o := o]> (orders w)) w in
      let '(w, invoice_filename) := generate_invoice_pdf o w in
      (w, Return (Success warnings (order_id o) invoice_filename))
  end.

(** * Order construction of the web layer *)

(** The fields of a posted order form that [submit] and [customer_submit]
    read; [form_qty k] is [int(request.form.get("qty_" + k, 0))]. *)
Record form := Form {
  form_name : string;
  form_email : string;
  form_preorder : option string;
  form_qty : string → Z
}.

(** The loop of both handlers over the queried products: one line per
    product with a positive quantity, and the running total. *)
Fixpoint order_lines (catalog : list (string * product)) (f : form)
    (its : list item) (total : number) : outcome (list item * number) :=
  match catalog with
  | [] => Return (its, total)
  | (k, p) :: rest =>
      let qty := form_qty f k in
      if decide (0 < qty) then
        match py_mul (Int qty) (price p) with
        | Raise e => Raise e
        | Return line_total =>
            match py_add total line_total with
            | Raise e => Raise e
            | Return total' =>
                order_lines rest f (its ++ [Item k (name p) qty (price p)])
                            total'
            end
        end
      else order_lines rest f its total
  end.

(** The order document of a handler; [prefix] is ["order_"] for the staff
    handler and ["cust_order_"] for the customer one, [today] is
    [str(date.today())].  An exception of the arithmetic ends the handler
    before the document is built. *)
Definition build_order (prefix today : string) (f : form) (w : world)
  : outcome order :=
  match order_lines (map_to_list (products w)) f [] (Int 0) with
  | Raise e => Raise e
  | Return (its, total) =>
      Return (Order (prefix +:+ today +:+ "_" +:+ form_email f) today
                    (form_name f) (form_email f) its total "norwood")
  end.

Definition preorder_flag (f : form) : bool :=
  bool_decide (form_preorder f = Some "yes").

Definition submit (today : string) (f : form) (w : world)
  : world * outcome result :=
  match build_order "order_" today f w with
  | Raise e => (w, Raise e)
  | Return o => validate_and_place_order o (preorder_flag f) w
  end.

Definition customer_submit (today : string) (f : form) (w : world)
  : world * outcome result :=
  match build_order "cust_order_" today f w with
  | Raise e => (w, Raise e)
  | Return o => validate_and_place_order o (preorder_flag f) w
  end.

(** * Daily summary *)

(** The query [SELECT * FROM c WHERE c.order_date = @date]. *)
Definition query_items (os : gmap string order) (d : string) : list order :=
  filter (λ o, order_date o = d) (snd <$> map_to_list os).

(** A Python [dict] from product name to units, in insertion order. *)
Fixpoint dict_get (d : list (string * Z)) (k : string) (default : Z) : Z :=
  match d with
  | [] => default
  | (k', v) :: rest => if decide (k' = k) then v else dict_get rest k default
  end.

Fixpoint dict_set (d : list (string * Z)) (k : string) (v : Z)
  : list (string * Z) :=
  match d with
  | [] => [(k, v)]
  | (k', v') :: rest =>
      if decide (k' = k) then (k, v) :: rest else (k', v') :: dict_set rest k v
  end.

(** The two nested loops filling [product_totals]. *)
Definition tally_item (totals : list (string * Z)) (it : item)
  : list (string * Z) :=
  dict_set totals (product_name it)
           (dict_get totals (product_name it) 0 + quantity it).

Definition tally_order (totals : list (string * Z)) (o : order)
  : list (string * Z) :=
  fold_left tally_item (items o) totals.

Definition product_totals (os : list order) : list (string * Z) :=
  fold_left tally_order os [].

(** Python's [max(iterable, key=f)]: the first element whose key is not
    exceeded by a later one. *)
Fixpoint max_from (f : string → Z) (best : string) (rest : list string)
  : string :=
  match rest with
  | [] => best
  | k :: rest' =>
      if decide (f best < f k) then max_from f k rest'
      else max_from f best rest'
  end.

Definition most_popular (totals : list (string * Z)) : option string :=
  match totals.*1 with
  | [] => None
  | k :: rest => Some (max_from (λ k, dict_get totals k 0) k rest)
  end.

(** The computation of [generate_daily_summary] on the queried orders; the
    sum of the totals may raise. *)
Definition summarise (d : string) (os : list order) : outcome summary :=
  match py_sum (order_total <$> os) with
  | Raise e => Raise e
  | Return total =>
      Return (Summary d (length os) total (most_popular (product_totals os)))
  end.

Definition generate_daily_summary (summary_date : string) (w : world)
  : outcome summary :=
  summarise summary_date (query_items (orders w) summary_date).

(** * Storing a summary in the SQL table *)

(** What the SQL server answers during one call of [store_summary]; it is
    decided outside the program.  Each field is the text of the exception
    that the driver raises at that statement, if it raises; a field is
    consulted only when the statement is reached. *)
Record sql_server := SqlServer {
  connect_error : option string;
  execute_error : option string;
  commit_error : option string
}.

Definition sql_up : sql_server := SqlServer None None None.

(** [get_sql_cursor]: connect once, keep the connection. *)
Definition get_sql_cursor (srv : sql_server) (w : world) : world * outcome unit :=
  if sql_connected w then (w, Return ())
  else
    match connect_error srv with
    | Some text => (w, Raise (SqlError text))
    | None => (set_sql true (daily_summary w) w, Return ())
    end.

(** The statement [IF NOT EXISTS (SELECT 1 ... WHERE summary_date = ?)
    INSERT INTO daily_summary ... VALUES (?, ?, ?, ?)] on the table. *)
Definition insert_if_absent (s : summary) (rows : list summary) : list summary :=
  if decide (Exists (λ r, date r = date s) rows) then rows else rows ++ [s].

(** Modelled from the spec: [generate_daily_summary_pdf] of [pdf_utils],
    which is not among the sources, when it returns; it materialises the
    artifact of a summary.  The call that may raise is
    [summary_pdf_or_raise] below. *)
Definition generate_daily_summary_pdf (s : summary) (w : world) : world :=
  add_pdf (SummaryPdf s) w.

(** The body of the [try], the summary writer returning: the row becomes
    durable at [commit]; an exception before the end of [commit] leaves the
    table as it was. *)
Definition store_summary_try (srv : sql_server) (s : summary) (w : world)
  : world * outcome bool :=
  match get_sql_cursor srv w with
  | (w, Raise e) => (w, Raise e)
  | (w, Return _) =>
      match execute_error srv with
      | Some text => (w, Raise (SqlError text))
      | None =>
          match commit_error srv with
          | Some text => (w, Raise (SqlError text))
          | None =>
              let w := set_sql (sql_connected w)
                               (insert_if_absent s (daily_summary w)) w in
              (generate_daily_summary_pdf s w, Return true)
          end
      end
  end.

Definition exn_text (e : exn) : string :=
  match e with
  | CosmosResourceNotFoundError k => k
  | SqlError text => text
  | PdfError text => text
  | OverflowError => "int too large to convert to float"
  end.

(** [store_summary], the summary writer returning; with a writer that may
    raise it is [store_summary_with] below, which agrees with this one when
    the writer returns. *)
Definition store_summary (srv : sql_server) (s : summary) (w : world)
  : world * outcome bool :=
  match store_summary_try srv s w with
  | (w, Raise e) =>
      let w := print ("⚠ Azure SQL unavailable: " +:+ exn_text e) w in
      (generate_daily_summary_pdf s w, Return false)
  | done => done
  end.

(** * The artifact writer as a call that may raise *)

(** Modelled from the spec: a call of [generate_invoice_pdf] as the code
    makes it.  It returns, as above, or raises; which of the two is decided
    outside the program and given as the text of the exception, if any. *)
Definition invoice_pdf_or_raise (answer : option string) (o : order)
    (w : world) : world * outcome string :=
  match answer with
  | Some text => (w, Raise (PdfError text))
  | None => let '(w, name) := generate_invoice_pdf o w in (w, Return name)
  end.

(** Modelled from the spec: a call of [generate_daily_summary_pdf] as the
    code makes it, in the same way. *)
Definition summary_pdf_or_raise (answer : option string) (s : summary)
    (w : world) : world * outcome unit :=
  match answer with
  | Some text => (w, Raise (PdfError text))
  | None => (generate_daily_summary_pdf s w, Return ())
  end.

(** [validate_and_place_order] with the answer of the invoice writer: the
    order is stored before the writer is called, outside any [try]. *)
Definition validate_and_place_order_with (invoice : option string) (o : order)
    (allow_preorder : bool) (w : world) : world * outcome result :=
  match order_loop allow_preorder (items o) (products w) [] with
  | (ps, Returned r) => (set_products ps w, Return r)
  | (ps, Raised e) => (set_products ps w, Raise e)
  | (ps, Fallthrough warnings) =>
      let w := set_products ps w in
      let w := set_orders (<[order_id o := o]> (orders w)) w in
      match invoice_pdf_or_raise invoice o w with
      | (w, Raise e) => (w, Raise e)
      | (w, Return invoice_filename) =>
          (w, Return (Success warnings (order_id o) invoice_filename))
      end
  end.

(** What the summary writer answers during one call of [store_summary]: at
    its call inside the [try] and at its call in the [except] branch.  A
    field is consulted only when the statement is reached. *)
Record pdf_writer := PdfWriter {
  in_try : option string;
  in_except : option string
}.

Definition pdf_up : pdf_writer := PdfWriter None None.

(** The body of the [try], with the writer called after the commit and
    inside the [try]. *)
Definition store_summary_try_with (srv : sql_server) (wr : pdf_writer)
    (s : summary) (w : world) : world * outcome bool :=
  match get_sql_cursor srv w with
  | (w, Raise e) => (w, Raise e)
  | (w, Return _) =>
      match execute_error srv with
      | Some text => (w, Raise (SqlError text))
      | None =>
          match commit_error srv with
          | Some text => (w, Raise (SqlError text))
          | None =>
              let w := set_sql (sql_connected w)
                               (insert_if_absent s (daily_summary w)) w in
              match summary_pdf_or_raise (in_try wr) s w with
              | (w, Raise e) => (w, Raise e)
              | (w, Return _) => (w, Return true)
              end
          end
      end
  end.

(** [store_summary] with the answers of the summary writer: any exception
    of the [try] is caught, reported as the SQL store being unavailable, and
    the writer is called again, outside any [try]. *)
Definition store_summary_with (srv : sql_server) (wr : pdf_writer)
    (s : summary) (w : world) : world * outcome bool :=
  match store_summary_try_with srv wr s w with
  | (w, Raise e) =>
      let w := print ("⚠ Azure SQL unavailable: " +:+ exn_text e) w in
      match summary_pdf_or_raise (in_except wr) s w with
      | (w, Raise e') => (w, Raise e')
      | (w, Return _) => (w, Return false)
      end
  | done => done
  end.

(** * The placement of an order as a sequence of store operations *)

(** Where a call of [validate_and_place_order] stands between two
    operations on the stores.  [AtRead]: at the top of the loop, before
    [read_item] (or, with no item left, before [upsert_item]).
    [AtReplace]: holding the decremented local [product], before
    [replace_item].  [AtInvoice]: before [generate_invoice_pdf]. *)
Inductive thread :=
  | AtRead (rest : list item) (warnings : list string)
  | AtReplace (key : string) (p : product) (rest : list item)
              (warnings : list string)
  | AtInvoice (warnings : list string)
  | Finished (r : outcome result).

Definition start (o : order) : thread := AtRead (items o) [].

(** One store operation of a call, with the local computation up to the
    next one. *)
Definition thread_step (o : order) (allow_preorder : bool) (t : thread)
    (w : world) : thread * world :=
  match t with
  | AtRead [] warnings =>
      (AtInvoice warnings, set_orders (<[order_id o := o]> (orders w)) w)
  | AtRead (it :: rest) warnings =>
      match products w !! product_id it with
      | None =>
          (Finished (Raise (CosmosResourceNotFoundError (product_id it))), w)
      | Some p =>
          match check_item allow_preorder it p warnings with
          | inl r => (Finished (Return r), w)
          | inr (p', warnings') =>
              (AtReplace (product_id it) p' rest warnings', w)
          end
      end
  | AtReplace key p rest warnings =>
      match products w !! key with
      | None => (Finished (Raise (CosmosResourceNotFoundError key)), w)
      | Some _ =>
          (AtRead rest (alert p warnings),
           set_products (<[key := p]> (products w)) w)
      end
  | AtInvoice warnings =>
      let '(w, invoice_filename) := generate_invoice_pdf o w in
      (Finished (Return (Success warnings (order_id o) invoice_filename)), w)
  | Finished r => (Finished r, w)
  end.

(** A call running alone for [n] operations. *)
Fixpoint run_alone (n : nat) (o : order) (allow_preorder : bool) (t : thread)
    (w : world) : thread * world :=
  match n with
  | O => (t, w)
  | S n' =>
      let '(t', w') := thread_step o allow_preorder t w in
      run_alone n' o allow_preorder t' w'
  end.

(** Two calls on the same stores; a schedule names, operation by
    operation, which call moves ([false]: the first, [true]: the second). *)
Record duo := Duo { call1 : thread; call2 : thread; shared : world }.

Definition duo_step (o1 : order) (b1 : bool) (o2 : order) (b2 : bool)
    (d : duo) (who : bool) : duo :=
  if who then
    let '(t, w) := thread_step o2 b2 (call2 d) (shared d) in Duo (call1 d) t w
  else
    let '(t, w) := thread_step o1 b1 (call1 d) (shared d) in Duo t (call2 d) w.

Definition run_schedule (o1 : order) (b1 : bool) (o2 : order) (b2 : bool)
    (schedule : list bool) (w : world) : duo :=
  fold_left (duo_step o1 b1 o2 b2) schedule (Duo (start o1) (start o2) w).

(** * Specification-level notions *)

(** The units that a list of items requests of one product id. *)
Fixpoint demand (its : list item) (pid : string) : Z :=
  match its with
  | [] => 0
  | it :: rest =>
      (if decide (product_id it = pid) then quantity it else 0) + demand rest pid
  end.

(** The products container after every product has shipped what [its]
    requests of it. *)
Definition ship (its : list item) (ps : gmap string product)
  : gmap string product :=
  map_imap (λ k p, Some (set_stock p (stock_quantity p - demand its k))) ps.
Arguments ship : simpl never.

(** The stock covers a list of items: each item finds its product, and its
    quantity together with what the earlier items of the list request of the
    same product is at most the stock. *)
Definition covered (its : list item) (ps : gmap string product) : Prop :=
  ∀ pre it post, its = pre ++ it :: post →
    ∃ p, ps !! product_id it = Some p
         ∧ demand pre (product_id it) + quantity it ≤ stock_quantity p.

(** Every product has a non-negative stock. *)
Definition nonneg (ps : gmap string product) : Prop :=
  ∀ k p, ps !! k = Some p → 0 ≤ stock_quantity p.

Definition stock_nonneg (w : world) : Prop := nonneg (products w).

(** The calls that change stock, and the worlds after each call of a
    sequence of them. *)
Inductive call :=
  | PlaceOrder (o : order) (allow_preorder : bool)
  | AdjustStock (pid : string) (adjustment : Z).

Definition run_call (c : call) (w : world) : world :=
  match c with
  | PlaceOrder o allow_preorder => (validate_and_place_order o allow_preorder w).1
  | AdjustStock pid adjustment => (adjust_stock pid adjustment w).1
  end.

Fixpoint history (cs : list call) (w : world) : list world :=
  match cs with
  | [] => []
  | c :: rest => run_call c w :: history rest (run_call c w)
  end.

(** The units that a list of items, and a list of orders, request under one
    product name; the money that a list of orders totals. *)
Fixpoint units (n : string) (its : list item) : Z :=
  match its with
  | [] => 0
  | it :: rest =>
      (if decide (product_name it = n) then quantity it else 0) + units n rest
  end.

Fixpoint units_sold (n : string) (os : list order) : Z :=
  match os with
  | [] => 0
  | o :: rest => units n (items o) + units_sold n rest
  end.

(** The value of a number that is an int (0 for a float), and the exact sum
    of the totals of a list of orders when they are ints. *)
Definition whole (n : number) : Z :=
  match n with
  | Int z => z
  | Float _ => 0
  end.

Definition is_int (n : number) : Prop := ∃ z, n = Int z.

Fixpoint revenue (os : list order) : Z :=
  match os with
  | [] => 0
  | o :: rest => whole (order_total o) + revenue rest
  end.

(** The total of a list of lines as the handlers compute it: quantity times
    unit price, line after line, added to the int 0. *)
Fixpoint lines_total_from (total : number) (its : list item) : outcome number :=
  match its with
  | [] => Return total
  | it :: rest =>
      match py_mul (Int (quantity it)) (unit_price it) with
      | Raise e => Raise e
      | Return line_total =>
          match py_add total line_total with
          | Raise e => Raise e
          | Return total' => lines_total_from total' rest
          end
      end
  end.

Definition lines_total (its : list item) : outcome number :=
  lines_total_from (Int 0) its.

(** The lines that a posted form asks of a list of products: one line per
    product with a positive quantity, in the order of the list. *)
Definition form_lines (f : form) (catalog : list (string * product))
  : list item :=
  (λ kp, Item kp.1 (name kp.2) (form_qty f kp.1) (price kp.2))
    <$> filter (λ kp, 0 < form_qty f kp.1) catalog.

(** How many of the operations of a schedule belong to a call. *)
Fixpoint moves (who : bool) (schedule : list bool) : nat :=
  match schedule with
  | [] => 0
  | b :: rest => ((if Bool.eqb b who then 1 else 0) + moves who rest)%nat
  end.

(** A call between two operations holds no negative stock in its local
    [product]. *)
Definition thread_nonneg (t : thread) : Prop :=
  match t with
  | AtReplace _ p _ _ => 0 ≤ stock_quantity p
  | _ => True
  end.

(** The rows of the SQL table for one day. *)
Definition rows_for (day : string) (rows : list summary) : nat :=
  length (filter (λ r, date r = day) rows).

(** The durable write of a call goes through: the connection is there or
    can be made, and neither the statement nor the commit raises. *)
Definition sql_succeeds (srv : sql_server) (w : world) : bool :=
  (sql_connected w || bool_decide (connect_error srv = None))
  && bool_decide (execute_error srv = None)
  && bool_decide (commit_error srv = None).

(** * A small shop for the examples *)

Module Shop.

Definition apple : product := Product "Apple" "Fruit" (Float 3.5) 20 "sup_1".
Definition banana : product := Product "Banana" "Fruit" (Float 2.8) 20 "sup_1".

(** Two seeded products, no order yet, the SQL table empty. *)
Definition opening : world :=
  World (<["prod_001" := apple]> (<["prod_002" := banana]> ∅)) ∅ false [] [] [].

Definition line (pid pname : string) (q : Z) (price : float) : item :=
  Item pid pname q (Float price).

Definition order_of (oid email : string) (its : list item) (total : float)
  : order :=
  Order oid "2024-05-01" "Ann" email its (Float total) "norwood".

(** 25 apples, five more than the shelf holds. *)
Definition apples25 : order :=
  order_of "order_2024-05-01_ann@x.org" "ann@x.org"
           [line "prod_001" "Apple" 25 3.5] 87.5.

(** 5 apples, then 25 bananas. *)
Definition apples5_bananas25 : order :=
  order_of "order_2024-05-01_ann@x.org" "ann@x.org"
           [line "prod_001" "Apple" 5 3.5; line "prod_002" "Banana" 25 2.8]
           87.5.

(** 12 apples twice in one order. *)
Definition apples12_twice : order :=
  order_of "order_2024-05-01_ann@x.org" "ann@x.org"
           [line "prod_001" "Apple" 12 3.5; line "prod_001" "Apple" 12 3.5]
           84.

(** Two customers, 12 apples each. *)
Definition ann12 : order :=
  order_of "order_2024-05-01_ann@x.org" "ann@x.org"
           [line "prod_001" "Apple" 12 3.5] 42.
Definition bob12 : order :=
  order_of "order_2024-05-01_bob@x.org" "bob@x.org"
           [line "prod_001" "Apple" 12 3.5] 42.

(** Posted forms of one customer: two apples, then three bananas, then
    both, then nothing at all. *)
Definition qty_of (pid : string) (q : Z) : string → Z :=
  λ k, if decide (k = pid) then q else 0.
Definition form_apples2 : form :=
  Form "Ann" "ann@x.org" None (qty_of "prod_001" 2).
Definition form_bananas3 : form :=
  Form "Ann" "ann@x.org" None (qty_of "prod_002" 3).
Definition form_apples2_bananas3 : form :=
  Form "Ann" "ann@x.org" None
       (λ k, if decide (k = "prod_001") then 2
             else if decide (k = "prod_002") then 3 else 0).
Definition form_nothing : form :=
  Form "Ann" "ann@x.org" None (λ _, 0).

(** Two summaries of the same day, and a server that refuses to connect. *)
Definition noon : summary :=
  Summary "2024-05-01" 1 (Float 42) (Some "Apple").
Definition evening : summary :=
  Summary "2024-05-01" 3 (Float 91) (Some "Banana").
Definition sql_down : sql_server :=
  SqlServer (Some "Login timeout expired") None None.

End Shop.

(** * The handlers of the web layer *)

(** What a handler hands to a template. *)
Inductive context :=
  | NoContext
  | ProductList (catalog : list (string * product))
  | OrderResult (r : result) (invoice_filename : string)
  | SummaryView (s : summary) (os : list order) (sql_saved : option bool)
                (selected_date : string)
  | ChartsView (stock_labels : list string) (stock_values : list Z)
               (stock_colors : list string) (units : Z) (low_stock_count : Z)
               (sales_labels : list string) (sales_values : list Z)
               (trend_labels : list string) (trend_values : list Z)
               (selected_date : option string).

(** The response of a handler: [redirect(url_for(endpoint))], [abort(code)]
    or [render_template(template, ...)]. *)
Inductive response :=
  | Redirect (endpoint : string)
  | Abort (code : Z)
  | Render (template : string) (ctx : context).

(** [role_required(role)] around a handler [f]; the Flask session is a
    dictionary of strings. *)
Definition role_required (role : string) (session : gmap string string)
    (f : world → world * outcome response) (w : world)
  : world * outcome response :=
  match session !! "role" with
  | None => (w, Return (Redirect "login"))
  | Some r =>
      if decide (r = role) then f w else (w, Return (Abort 403))
  end.

(** [/login]: a POST carries the role of the form, a GET shows the page. *)
Definition login (posted_role : option string) (session : gmap string string)
  : gmap string string * response :=
  match posted_role with
  | Some role =>
      (<["role" := role]> session,
       Redirect (if decide (role = "admin") then "summary" else "index"))
  | None => (session, Render "login.html" NoContext)
  end.

(** [/logout]. *)
Definition logout (session : gmap string string)
  : gmap string string * response :=
  (∅, Redirect "login").

(** [/]. *)
Definition index (session : gmap string string) (w : world) : response :=
  match session !! "role" with
  | None => Redirect "login"
  | Some r =>
      if decide (r = "admin") then Redirect "summary"
      else Render "index.html" (ProductList (map_to_list (products w)))
  end.

(** The end of both order handlers: the result page, with the invoice name
    built from the order id whatever the result. *)
Definition result_page (template : string) (o : order)
    (r : world * outcome result) : world * outcome response :=
  match r with
  | (w, Return res) =>
      (w, Return (Render template
                    (OrderResult res ("invoice_" +:+ order_id o +:+ ".pdf"))))
  | (w, Raise e) => (w, Raise e)
  end.

(** [/submit], for staff. *)
Definition route_submit (session : gmap string string) (today : string)
    (f : form) (w : world) : world * outcome response :=
  role_required "staff" session
    (λ w, match build_order "order_" today f w with
          | Raise e => (w, Raise e)
          | Return o =>
              result_page "result.html" o
                (validate_and_place_order o (preorder_flag f) w)
          end) w.

(** [/customer/submit], public. *)
Definition route_customer_submit (today : string) (f : form) (w : world)
  : world * outcome response :=
  match build_order "cust_order_" today f w with
  | Raise e => (w, Raise e)
  | Return o =>
      result_page "customer_result.html" o
        (validate_and_place_order o (preorder_flag f) w)
  end.

(** [/inventory/update], for staff. *)
Definition route_inventory_update (session : gmap string string)
    (pid : string) (adjustment : Z) (w : world) : world * outcome response :=
  role_required "staff" session
    (λ w, match adjust_stock pid adjustment w with
          | (w', Return _) => (w', Return (Redirect "inventory"))
          | (w', Raise e) => (w', Raise e)
          end) w.

(** [request.form.get(field) or str(date.today())]. *)
Definition selected_or_today (posted : option string) (today : string) : string :=
  match posted with
  | Some d => if decide (d = "") then today else d
  | None => today
  end.

(** [/summary], for the admin: compute, store, show (the summary writer
    returning). *)
Definition route_summary (session : gmap string string) (srv : sql_server)
    (posted : option string) (today : string) (w : world)
  : world * outcome response :=
  role_required "admin" session
    (λ w,
       let selected_date := selected_or_today posted today in
       match generate_daily_summary selected_date w with
       | Raise e => (w, Raise e)
       | Return summary_data =>
           match store_summary srv summary_data w with
           | (w', Return sql_saved) =>
               (w', Return (Render "summary.html"
                              (SummaryView summary_data
                                 (query_items (orders w') selected_date)
                                 (Some sql_saved) selected_date)))
           | (w', Raise e) => (w', Raise e)
           end
       end) w.

(** [/summary] with the answers of the summary writer. *)
Definition route_summary_with (session : gmap string string)
    (srv : sql_server) (wr : pdf_writer) (posted : option string)
    (today : string) (w : world) : world * outcome response :=
  role_required "admin" session
    (λ w,
       let selected_date := selected_or_today posted today in
       match generate_daily_summary selected_date w with
       | Raise e => (w, Raise e)
       | Return summary_data =>
           match store_summary_with srv wr summary_data w with
           | (w', Return sql_saved) =>
               (w', Return (Render "summary.html"
                              (SummaryView summary_data
                                 (query_items (orders w') selected_date)
                                 (Some sql_saved) selected_date)))
           | (w', Raise e) => (w', Raise e)
           end
       end) w.

(** [/customer/summary], public and read-only. *)
Definition route_customer_summary (posted : option string) (today : string)
    (w : world) : outcome response :=
  let selected_date := selected_or_today posted today in
  match generate_daily_summary selected_date w with
  | Raise e => Raise e
  | Return summary_data =>
      Return (Render "customer_summary.html"
                (SummaryView summary_data
                             (query_items (orders w) selected_date) None
                             selected_date))
  end.

(** The four accumulators of the first loop of [/charts]. *)
Record stock_chart := StockChart {
  stock_labels : list string;
  stock_values : list Z;
  stock_colors : list string;
  low_stock_count : Z
}.

Definition stock_point (acc : stock_chart) (kp : string * product)
  : stock_chart :=
  let p := kp.2 in
  let labels := stock_labels acc ++ [name p] in
  let values := stock_values acc ++ [stock_quantity p] in
  if decide (stock_quantity p < 5) then
    StockChart labels values (stock_colors acc ++ ["#c62828"])
               (low_stock_count acc + 1)
  else if decide (stock_quantity p < 10) then
    StockChart labels values (stock_colors acc ++ ["#ef6c00"])
               (low_stock_count acc)
  else
    StockChart labels values (stock_colors acc ++ ["#2e7d32"])
               (low_stock_count acc).

Definition stock_series (catalog : list (string * product)) : stock_chart :=
  fold_left stock_point catalog (StockChart [] [] [] 0).

(** The three accumulators of the second loop of [/charts]. *)
Record sales_chart := SalesChart {
  chart_units_sold : Z;
  sales_totals : list (string * Z);
  trend_totals : list (string * Z)
}.

Definition sales_point (acc : sales_chart) (o : order) : sales_chart :=
  SalesChart
    (chart_units_sold acc + fold_left Z.add (quantity <$> items o) 0)
    (fold_left tally_item (items o) (sales_totals acc))
    (dict_set (trend_totals acc) (order_date o)
              (dict_get (trend_totals acc) (order_date o) 0 + 1)).

Definition sales_series (os : list order) : sales_chart :=
  fold_left sales_point os (SalesChart 0 [] []).

(** [sorted] on strings: a stable merge sort by code points. *)
Definition string_le (a b : string) : Prop := String.leb a b = true.

#[global] Instance string_le_dec : RelDecision string_le :=
  λ a b, decide (String.leb a b = true).

Definition sorted (l : list string) : list string := merge_sort string_le l.

(** The orders that [/charts] reads: those of the posted day, or all of
    them when no day (or an empty one) is posted. *)
Definition chart_orders (posted : option string) (w : world) : list order :=
  match posted with
  | Some d =>
      if decide (d = "") then snd <$> map_to_list (orders w)
      else query_items (orders w) d
  | None => snd <$> map_to_list (orders w)
  end.

(** [/charts], for the admin. *)
Definition route_charts (session : gmap string string)
    (posted : option string) (w : world) : world * outcome response :=
  role_required "admin" session
    (λ w,
       let st := stock_series (map_to_list (products w)) in
       let sa := sales_series (chart_orders posted w) in
       let days := sorted (trend_totals sa).*1 in
       (w, Return (Render "charts.html"
                     (ChartsView (stock_labels st) (stock_values st)
                        (stock_colors st) (chart_units_sold sa)
                        (low_stock_count st)
                        (sales_totals sa).*1 (sales_totals sa).*2
                        days ((λ d, dict_get (trend_totals sa) d 0) <$> days)
                        posted)))) w.

(** ** Notions for the properties of the rest of the code *)

(** The colour that [/charts] gives a stock level. *)
Definition stock_color (q : Z) : string :=
  if decide (q < 5) then "#c62828"
  else if decide (q < 10) then "#ef6c00" else "#2e7d32".

(** The product names of the line items of a list of orders, in order, and
    the names of a list in the order of their first appearance. *)
Definition line_names (os : list order) : list string :=
  os ≫= (λ o, product_name <$> items o).

Definition first_seen (names : list string) : list string :=
  fold_left (λ acc n, if decide (n ∈ acc) then acc else acc ++ [n]) names [].

(** All the units of a list of orders. *)
Definition all_units (os : list order) : Z :=
  foldr Z.add 0 (quantity <$> (os ≫= items)).



(** Fixtures: a staff and an admin session, a day with three orders. *)
Definition staff_session : gmap string string := {["role" := "staff"]}.
Definition admin_session : gmap string string := {["role" := "admin"]}.

(** * Tactics for the schedules of two calls *)

(** Stepping through a schedule: one operation of one call on the shared
    stores, the stock being read from [Hp] or from what was last written. *)
Ltac run_step Hp :=
  lazymatch goal with
  | |- context [duo_step ?o1 ?b1 ?o2 ?b2 (Duo ?t1 ?t2 ?w) ?who] =>
      let H := fresh "Hstep" in
      eassert (duo_step o1 b1 o2 b2 (Duo t1 t2 w) who = _) as H;
      [ unfold duo_step;
        cbn [call1 call2 shared thread_step products orders set_products
             set_orders product_id generate_invoice_pdf add_pdf pdfs
             sql_connected daily_summary stdout];
        rewrite ?lookup_insert_eq, ?Hp;
        unfold check_item;
        cbn [quantity stock_quantity set_stock name category price
             supplier_id];
        repeat first [ rewrite decide_True by lia
                     | rewrite decide_False by lia ];
        reflexivity
      | rewrite H; clear H ]
  end.

(** The schedules with given numbers of operations of each call, one after
    the other. *)
Ltac each_schedule H1 H2 leaf :=
  lazymatch type of H1 with
  | moves false ?s = _ =>
      destruct s as [|[] s];
      [ first [ discriminate H1 | discriminate H2 | leaf ]
      | cbn [moves Bool.eqb Nat.add] in H1, H2;
        first [ discriminate H2
              | apply Nat.succ_inj in H2; each_schedule H1 H2 leaf ]
      | cbn [moves Bool.eqb Nat.add] in H1, H2;
        first [ discriminate H1
              | apply Nat.succ_inj in H1; each_schedule H1 H2 leaf ] ]
  end.

(** The end of a schedule: the two calls and the stock are as stated. *)
Ltac finish_schedule Hp :=
  cbn [fold_left]; repeat run_step Hp; intros d ->;
  cbn [call1 call2 shared add_pdf set_orders set_products products];
  unfold stock_of; rewrite !lookup_insert_eq;
  split; [eexists; split; [reflexivity | cbn; lia] |];
  split_and!; reflexivity.

(** * Python arithmetic *)

Section python_arithmetic.

Implicit Types (a b acc : number) (e : exn).

(** The only exception of the arithmetic is the overflow of the conversion
    of an int to a float. *)
Lemma as_float_raises a e : as_float a = Raise e → e = OverflowError.
Proof.
  destruct a as [z|x]; [|done]. cbn [as_float]. unfold float_of_int.
  destruct (is_infinity _); congruence.
Qed.

Lemma py_add_raises a b e : py_add a b = Raise e → e = OverflowError.
Proof.
  unfold py_add, as_float, float_of_int.
  destruct a as [x|x], b as [y|y]; repeat destruct (is_infinity _); congruence.
Qed.

Lemma py_mul_raises a b e : py_mul a b = Raise e → e = OverflowError.
Proof.
  unfold py_mul, as_float, float_of_int.
  destruct a as [x|x], b as [y|y]; repeat destruct (is_infinity _); congruence.
Qed.

Lemma py_sum_from_raises acc values e :
  py_sum_from acc values = Raise e → e = OverflowError.
Proof.
  revert acc. induction values as [|x values IH]; intros acc; [done |].
  cbn [py_sum_from]. destruct (py_add acc x) as [acc'|e'] eqn:Hadd.
  - apply IH.
  - intros [= <-]. by eapply py_add_raises.
Qed.

(** Ints are added and multiplied exactly, without an exception. *)
Lemma py_sum_from_ints (z : Z) (zs : list Z) :
  py_sum_from (Int z) (Int <$> zs) = Return (Int (z + foldr Z.add 0 zs)).
Proof.
  revert z. induction zs as [|y zs IH]; intros z.
  - cbn. by rewrite Z.add_0_r.
  - cbn [fmap list_fmap py_sum_from py_add foldr]. fold (fmap Int zs).
    rewrite IH. by rewrite Z.add_assoc.
Qed.

(** The sum of floats depends on the order of its operands. *)
Lemma py_sum_is_ordered :
  py_sum [Float 0.1; Float 0.2; Float 0.3] = Return (Float 0.6000000000000001)
  ∧ py_sum [Float 0.3; Float 0.2; Float 0.1] = Return (Float 0.6).
Proof. split; vm_compute; reflexivity. Qed.

End python_arithmetic.

(** * The order engine *)

Section order_engine.

Implicit Types (ps : gmap string product) (its : list item)
               (ws : list string) (p : product) (it : item).

Lemma set_stock_same p : set_stock p (stock_quantity p) = p.
Proof. by destruct p. Qed.

Lemma demand_app its1 its2 pid :
  demand (its1 ++ its2) pid = demand its1 pid + demand its2 pid.
Proof. induction its1 as [|it its1 IH]; simpl; [done | rewrite IH; lia]. Qed.

Lemma demand_absent its pid : pid ∉ product_id <$> its → demand its pid = 0.
Proof.
  induction its as [|it its IH]; simpl; [done |].
  rewrite not_elem_of_cons. intros [Hne Hnot].
  rewrite decide_False by done. rewrite IH; [lia | done].
Qed.

Lemma demand_nonneg its pid :
  (∀ it, it ∈ its → 0 ≤ quantity it) → 0 ≤ demand its pid.
Proof.
  induction its as [|it its IH]; simpl; intros Hq; [lia |].
  assert (0 ≤ quantity it) by (apply Hq; left).
  assert (0 ≤ demand its pid) by (apply IH; intros; apply Hq; by right).
  case_decide; lia.
Qed.

Lemma lookup_ship its ps k :
  ship its ps !! k
  = (λ p, set_stock p (stock_quantity p - demand its k)) <$> ps !! k.
Proof. unfold ship. rewrite map_lookup_imap. by destruct (ps !! k). Qed.

Lemma ship_nil ps : ship [] ps = ps.
Proof.
  apply map_eq; intros k. rewrite lookup_ship. simpl.
  destruct (ps !! k) as [p|]; simpl; [|done].
  by rewrite Z.sub_0_r, set_stock_same.
Qed.

Lemma ship_untouched its ps k :
  k ∉ product_id <$> its → ship its ps !! k = ps !! k.
Proof.
  intros Hk. rewrite lookup_ship, demand_absent by done.
  destruct (ps !! k) as [p|]; simpl; [|done].
  by rewrite Z.sub_0_r, set_stock_same.
Qed.

(** Shipping one item and then the others is shipping them all. *)
Lemma ship_cons it its ps p :
  ps !! product_id it = Some p →
  ship its (<[product_id it := set_stock p (stock_quantity p - quantity it)]> ps)
  = ship (it :: its) ps.
Proof.
  intros Hp. apply map_eq; intros k. rewrite !lookup_ship.
  cbn [demand].
  destruct (decide (product_id it = k)) as [<-|Hne].
  - rewrite lookup_insert_eq, Hp. simpl.
    unfold set_stock; simpl. f_equal. f_equal. lia.
  - rewrite lookup_insert_ne by done.
    by rewrite Z.add_0_l.
Qed.

(** A turn on an item that the stock covers. *)
Lemma process_item_covered b it ps ws p :
  ps !! product_id it = Some p →
  quantity it ≤ stock_quantity p →
  process_item b it ps ws
  = (<[product_id it := set_stock p (stock_quantity p - quantity it)]> ps,
     Fallthrough (alert (set_stock p (stock_quantity p - quantity it)) ws)).
Proof.
  intros Hp Hq. unfold process_item, check_item. rewrite Hp.
  rewrite decide_False by lia. done.
Qed.

(** A turn on an item that the stock does not cover, without pre-order. *)
Lemma process_item_oversell it ps ws p :
  ps !! product_id it = Some p →
  stock_quantity p < quantity it →
  process_item false it ps ws
  = (ps, Returned (Error (only_available (stock_quantity p))
                         (stock_quantity p) true)).
Proof.
  intros Hp Hq. unfold process_item, check_item. rewrite Hp.
  by rewrite decide_True by lia.
Qed.

(** A turn on an item that the stock does not cover, with pre-order. *)
Lemma process_item_preorder it ps ws p :
  ps !! product_id it = Some p →
  stock_quantity p < quantity it →
  process_item true it ps ws
  = (<[product_id it := set_stock p 0]> ps,
     Fallthrough (ws ++ [preorder_warning (quantity it) (stock_quantity p);
                         "Low stock alert: " +:+ name p +:+ " (0 left)"])).
Proof.
  intros Hp Hq. unfold process_item, check_item. rewrite Hp.
  rewrite decide_True by lia. rewrite Z.sub_diag.
  unfold alert. cbn [stock_quantity set_stock].
  rewrite decide_True by lia. by rewrite <- app_assoc.
Qed.

Lemma order_loop_app b its1 its2 ps ws :
  order_loop b (its1 ++ its2) ps ws
  = match order_loop b its1 ps ws with
    | (ps', Fallthrough ws') => order_loop b its2 ps' ws'
    | stop => stop
    end.
Proof.
  revert ps ws. induction its1 as [|it its1 IH]; intros ps ws; simpl; [done |].
  destruct (process_item b it ps ws) as [ps' [ws'| |]]; [apply IH | done..].
Qed.

Lemma process_item_warnings b it ps ws :
  process_item b it ps ws
  = match process_item b it ps [] with
    | (ps', Fallthrough ws') => (ps', Fallthrough (ws ++ ws'))
    | stop => stop
    end.
Proof.
  unfold process_item, check_item, alert.
  destruct (ps !! product_id it) as [p|]; [|done].
  repeat (case_decide || destruct b); simpl;
    rewrite ?app_nil_r, <- ?app_assoc; done.
Qed.

Lemma order_loop_warnings b its ps ws :
  order_loop b its ps ws
  = match order_loop b its ps [] with
    | (ps', Fallthrough ws') => (ps', Fallthrough (ws ++ ws'))
    | stop => stop
    end.
Proof.
  revert ps ws. induction its as [|it its IH]; intros ps ws; simpl.
  - by rewrite app_nil_r.
  - rewrite (process_item_warnings b it ps ws).
    destruct (process_item b it ps []) as [ps1 [d| |]]; [|done..].
    rewrite (IH ps1 (ws ++ d)), (IH ps1 d).
    destruct (order_loop b its ps1 []) as [ps2 [ws'| |]]; [|done..].
    by rewrite app_assoc.
Qed.

Lemma covered_nil ps : covered [] ps.
Proof. intros [|??] ?? Heq; discriminate Heq. Qed.

Lemma covered_cons it its ps p :
  ps !! product_id it = Some p →
  covered (it :: its) ps
  ↔ quantity it ≤ stock_quantity p
    ∧ covered its
        (<[product_id it := set_stock p (stock_quantity p - quantity it)]> ps).
Proof.
  intros Hp. split.
  - intros Hc. split.
    + destruct (Hc [] it its eq_refl) as (p' & Hp' & Hle).
      simpl in Hle. by simplify_eq.
    + intros pre it' post ->.
      destruct (Hc (it :: pre) it' post eq_refl) as (p' & Hp' & Hle).
      cbn [demand] in Hle.
      destruct (decide (product_id it = product_id it')) as [Heq|Hne].
      * rewrite <- Heq, lookup_insert_eq. rewrite <- Heq in Hp'.
        simplify_eq. eexists; split; [done |]. simpl. rewrite Heq. lia.
      * rewrite lookup_insert_ne by done. eexists; split; [done |].
        simpl in Hle. lia.
  - intros [Hq Hc] pre it' post Heq. destruct pre as [|it0 pre]; simpl in Heq.
    + simplify_eq. exists p. split; [done |]. simpl. lia.
    + injection Heq as <- ->.
      destruct (Hc pre it' post eq_refl) as (p' & Hp' & Hle).
      cbn [demand].
      destruct (decide (product_id it = product_id it')) as [Heq|Hne].
      * rewrite <- Heq, lookup_insert_eq in Hp'. rewrite <- Heq in *.
        simplify_eq. exists p. split; [done |]. simpl in Hle. lia.
      * rewrite lookup_insert_ne in Hp' by done.
        exists p'. split; [done |]. simpl. lia.
Qed.

(** Products asked one by one, each within its stock, are covered. *)
Lemma covered_distinct its ps :
  NoDup (product_id <$> its) →
  (∀ it, it ∈ its →
     ∃ p, ps !! product_id it = Some p ∧ quantity it ≤ stock_quantity p) →
  covered its ps.
Proof.
  intros Hnd Hall pre it post ->.
  destruct (Hall it) as (p & Hp & Hq); [set_solver |].
  exists p. split; [done |].
  rewrite fmap_app, fmap_cons in Hnd.
  apply NoDup_app in Hnd as (_ & Hdisj & _).
  rewrite demand_absent; [lia |].
  intros Hin. apply (Hdisj _ Hin). left.
Qed.

(** A loop over covered items ships them all, with or without pre-order. *)
Lemma order_loop_covered b its ps ws :
  covered its ps →
  ∃ ws', order_loop b its ps ws = (ship its ps, Fallthrough ws').
Proof.
  revert ps ws. induction its as [|it its IH]; intros ps ws Hc; simpl.
  - rewrite ship_nil. by eexists.
  - destruct (Hc [] it its eq_refl) as (p & Hp & _).
    destruct (proj1 (covered_cons _ _ _ _ Hp) Hc) as [Hq Hc1].
    rewrite (process_item_covered b it ps ws p Hp Hq).
    destruct (IH _ (alert (set_stock p (stock_quantity p - quantity it)) ws) Hc1)
      as [ws' ->].
    rewrite (ship_cons _ _ _ _ Hp). by eexists.
Qed.

(** Without pre-order, a loop over items of existing products either ships
    them all, or stops at the first item that the stock left by the
    earlier ones does not cover, keeping what the earlier ones shipped. *)
Lemma order_loop_strict its ps ws :
  (∀ it, it ∈ its → is_Some (ps !! product_id it)) →
  (covered its ps
   ∧ ∃ ws', order_loop false its ps ws = (ship its ps, Fallthrough ws'))
  ∨ (∃ pre it post p,
       its = pre ++ it :: post ∧ ps !! product_id it = Some p
       ∧ stock_quantity p - demand pre (product_id it) < quantity it
       ∧ order_loop false its ps ws
         = (ship pre ps,
            Returned (Error
              (only_available (stock_quantity p - demand pre (product_id it)))
              (stock_quantity p - demand pre (product_id it)) true))).
Proof.
  revert ps ws. induction its as [|it its IH]; intros ps ws Hex.
  - left. split; [apply covered_nil |]. simpl. rewrite ship_nil. by eexists.
  - destruct (Hex it) as [p Hp]; [left |].
    destruct (decide (quantity it ≤ stock_quantity p)) as [Hq|Hq].
    + set (p1 := set_stock p (stock_quantity p - quantity it)).
      set (ps1 := <[product_id it := p1]> ps).
      assert (∀ i, i ∈ its → is_Some (ps1 !! product_id i)) as Hex1.
      { intros i Hi. unfold ps1. rewrite lookup_insert_is_Some.
        destruct (decide (product_id it = product_id i)); [by left |].
        right. split; [done |]. apply Hex. by right. }
      simpl. rewrite (process_item_covered false it ps ws p Hp Hq).
      fold p1 ps1.
      destruct (IH ps1 (alert p1 ws) Hex1)
        as [[Hc [ws' ->]] | (pre & it' & post & p' & -> & Hp' & Hlt & ->)].
      * left. split; [by apply (covered_cons _ _ _ _ Hp) |].
        unfold ps1, p1. rewrite (ship_cons _ _ _ _ Hp). by eexists.
      * right. exists (it :: pre), it', post.
        unfold ps1, p1 in *. rewrite (ship_cons _ _ _ _ Hp).
        cbn [demand].
        destruct (decide (product_id it = product_id it')) as [Heq|Hne].
        -- rewrite <- Heq, lookup_insert_eq in Hp'. rewrite <- Heq in *.
           simplify_eq. simpl in *. exists p. split_and!; [done.. | lia |].
           do 3 f_equal; [f_equal |]; lia.
        -- rewrite lookup_insert_ne in Hp' by done.
           exists p'. split_and!; [done.. | lia |].
           by rewrite Z.add_0_l.
    + right. exists [], it, its, p. simpl.
      rewrite Z.sub_0_r, ship_nil.
      rewrite (process_item_oversell it ps ws p Hp) by lia.
      split_and!; [done.. | lia | done].
Qed.

(** The loop neither adds nor removes a product. *)
Lemma process_item_keys b it ps ws ps' fl k :
  process_item b it ps ws = (ps', fl) →
  is_Some (ps' !! k) ↔ is_Some (ps !! k).
Proof.
  unfold process_item. destruct (ps !! product_id it) as [p|] eqn:Hp.
  - destruct (check_item b it p ws) as [r|[p' ws']]; intros [= <- <-]; [done |].
    rewrite lookup_insert_is_Some.
    split; [intros [<-|[_ ?]]; [by rewrite Hp | done] |].
    intros ?. destruct (decide (product_id it = k)); [by left | by right].
  - by intros [= <- <-].
Qed.

Lemma order_loop_keys b its ps ws ps' fl k :
  order_loop b its ps ws = (ps', fl) →
  is_Some (ps' !! k) ↔ is_Some (ps !! k).
Proof.
  revert ps ws. induction its as [|it its IH]; intros ps ws; simpl.
  - by intros [= <- <-].
  - destruct (process_item b it ps ws) as [ps1 fl1] eqn:H1.
    pose proof (process_item_keys _ _ _ _ _ _ k H1) as Hk.
    destruct fl1 as [ws1| |].
    + intros H2. rewrite (IH _ _ H2). done.
    + by intros [= <- <-].
    + by intros [= <- <-].
Qed.

(** With pre-order allowed the loop runs to its end when every item finds
    its product. *)
Lemma order_loop_preorder its ps ws :
  (∀ it, it ∈ its → is_Some (ps !! product_id it)) →
  ∃ ps' ws', order_loop true its ps ws = (ps', Fallthrough ws').
Proof.
  revert ps ws. induction its as [|it its IH]; intros ps ws Hex; simpl.
  - by eexists _, _.
  - destruct (Hex it) as [p Hp]; [left |].
    destruct (process_item true it ps ws) as [ps1 fl1] eqn:H1.
    assert (∃ ws1, fl1 = Fallthrough ws1) as [ws1 ->].
    { revert H1. unfold process_item, check_item. rewrite Hp.
      case_decide; intros [= <- <-]; by eexists. }
    apply IH. intros i Hi.
    rewrite (process_item_keys _ _ _ _ _ _ (product_id i) H1).
    apply Hex. by right.
Qed.

(** A product that is sold out stays sold out while the loop meets no
    negative quantity for it. *)
Lemma order_loop_sold_out b its ps ws ps' ws' k :
  order_loop b its ps ws = (ps', Fallthrough ws') →
  stock_of ps k = Some 0 →
  (∀ it, it ∈ its → product_id it = k → 0 ≤ quantity it) →
  stock_of ps' k = Some 0.
Proof.
  revert ps ws. induction its as [|it its IH]; intros ps ws; simpl.
  - by intros [= <- <-].
  - destruct (process_item b it ps ws) as [ps1 [ws1| |]] eqn:H1; [|done..].
    intros H2 H0 Hq.
    apply (IH _ _ H2); [|intros i Hi; apply Hq; by right].
    revert H1. unfold process_item.
    destruct (ps !! product_id it) as [p|] eqn:Hp; [|done].
    destruct (check_item b it p ws) as [r|[p' wsp]] eqn:Hc; [done |].
    intros [= <- _]. unfold stock_of in *.
    destruct (decide (product_id it = k)) as [<-|Hne];
      [|by rewrite lookup_insert_ne].
    rewrite lookup_insert_eq. rewrite Hp in H0. simpl in *.
    assert (0 ≤ quantity it) by (apply Hq; [left | done]).
    revert Hc. unfold check_item.
    repeat case_match; intros [= <- _]; simpl; f_equal; simplify_eq; lia.
Qed.

(** The end of a call whose loop ran to its end. *)
Lemma place_fallthrough o b w ps ws :
  order_loop b (items o) (products w) [] = (ps, Fallthrough ws) →
  validate_and_place_order o b w
  = (World ps (<[order_id o := o]> (orders w)) (sql_connected w)
           (daily_summary w) (pdfs w ++ [InvoicePdf o]) (stdout w),
     Return (Success ws (order_id o) ("invoice_" +:+ order_id o +:+ ".pdf"))).
Proof. intros Hloop. unfold validate_and_place_order. by rewrite Hloop. Qed.

(** The only result returned from inside the loop is an error. *)
Lemma order_loop_returned b its ps ws ps' r :
  order_loop b its ps ws = (ps', Returned r) →
  ∃ available, r = Error (only_available available) available true.
Proof.
  revert ps ws. induction its as [|it its IH]; intros ps ws; simpl; [done |].
  destruct (process_item b it ps ws) as [ps1 [ws1| |]] eqn:H1;
    [apply IH | | done].
  intros [= <- <-]. revert H1. unfold process_item, check_item.
  destruct (ps !! product_id it) as [p|]; [|done].
  repeat case_match; intros [= _ <-]; simplify_eq; by eexists.
Qed.

(** The only exception raised inside the loop is that of a product that is
    not found. *)
Lemma order_loop_raised b its ps ws ps' e :
  order_loop b its ps ws = (ps', Raised e) →
  ∃ k, e = CosmosResourceNotFoundError k.
Proof.
  revert ps ws. induction its as [|it its IH]; intros ps ws; simpl; [done |].
  destruct (process_item b it ps ws) as [ps1 [ws1| |]] eqn:H1;
    [apply IH | done |].
  intros [= <- <-]. revert H1. unfold process_item.
  destruct (ps !! product_id it) as [p|]; [|intros [= _ <-]; by eexists].
  destruct (check_item b it p ws) as [r|[p' ws']]; done.
Qed.

(** With an invoice writer that returns, the call is
    [validate_and_place_order]. *)
Lemma validate_and_place_order_with_returning o b w :
  validate_and_place_order_with None o b w = validate_and_place_order o b w.
Proof.
  unfold validate_and_place_order_with, validate_and_place_order.
  by destruct (order_loop b (items o) (products w) []) as [ps [ws| |]].
Qed.

(** A call that reports success ran its loop to the end. *)
Lemma place_success_inv o b w w' ws oid inv :
  validate_and_place_order o b w = (w', Return (Success ws oid inv)) →
  ∃ ps,
    order_loop b (items o) (products w) [] = (ps, Fallthrough ws)
    ∧ w' = World ps (<[order_id o := o]> (orders w)) (sql_connected w)
                 (daily_summary w) (pdfs w ++ [InvoicePdf o]) (stdout w)
    ∧ oid = order_id o.
Proof.
  unfold validate_and_place_order.
  destruct (order_loop b (items o) (products w) []) as [ps [ws'| |]] eqn:Hl.
  - intros [= <- <- <- _]. by exists ps.
  - intros [= _ ->]. by apply order_loop_returned in Hl as [? ?].
  - done.
Qed.

End order_engine.

(** ** Oversell without pre-order *)

(** C1, as the code has it.  Without pre-order, when every item of the order
    names an existing product with a non-negative quantity and some item
    asks for more than the stock of its product, the call returns an error
    at the first item [it] that the stock left by the earlier items [pre]
    does not cover.  The error carries that stock (the stock before the call
    less what [pre] took of the same product); no order is stored and no
    invoice is written; the products container is the one before the call
    with the items of [pre] shipped, so every product that [pre] does not
    name is unchanged, and nothing is rolled back. *)
Theorem oversell_without_preorder (o : order) (w : world) :
  (∀ it, it ∈ items o →
     is_Some (products w !! product_id it) ∧ 0 ≤ quantity it) →
  (∃ it p, it ∈ items o ∧ products w !! product_id it = Some p
           ∧ stock_quantity p < quantity it) →
  ∃ pre it post p available w',
    items o = pre ++ it :: post
    ∧ products w !! product_id it = Some p
    ∧ available = stock_quantity p - demand pre (product_id it)
    ∧ available < quantity it
    ∧ validate_and_place_order o false w
      = (w', Return (Error (only_available available) available true))
    ∧ orders w' = orders w
    ∧ pdfs w' = pdfs w
    ∧ products w' = ship pre (products w)
    ∧ (∀ k, k ∉ product_id <$> pre → products w' !! k = products w !! k)
    ∧ (pre = [] → w' = w).
Proof.
  intros Hwf (bad & pb & Hbad & Hpb & Hlt).
  destruct (order_loop_strict (items o) (products w) [])
    as [[Hc _] | (pre & it & post & p & Hsplit & Hp & Hshort & Hloop)].
  { intros it Hit. by apply Hwf. }
  - exfalso.
    apply list_elem_of_split in Hbad as (pre & post & Hsplit).
    destruct (Hc pre bad post Hsplit) as (p & Hp & Hle).
    assert (0 ≤ demand pre (product_id bad)).
    { apply demand_nonneg. intros i Hi. apply Hwf. rewrite Hsplit.
      apply elem_of_app. by left. }
    simplify_eq. lia.
  - exists pre, it, post, p, (stock_quantity p - demand pre (product_id it)).
    eexists. unfold validate_and_place_order. rewrite Hloop.
    split_and!; try done.
    + intros k Hk. simpl. by apply ship_untouched.
    + intros ->. rewrite ship_nil. by destruct w.
Qed.

(** An instance: 25 apples against a shelf of 20. *)
Lemma oversell_without_preorder_witness :
  ∃ pre it post p available w',
    items Shop.apples25 = pre ++ it :: post
    ∧ products Shop.opening !! product_id it = Some p
    ∧ available = stock_quantity p - demand pre (product_id it)
    ∧ available < quantity it
    ∧ validate_and_place_order Shop.apples25 false Shop.opening
      = (w', Return (Error (only_available available) available true))
    ∧ orders w' = orders Shop.opening
    ∧ pdfs w' = pdfs Shop.opening
    ∧ products w' = ship pre (products Shop.opening)
    ∧ (∀ k, k ∉ product_id <$> pre →
            products w' !! k = products Shop.opening !! k)
    ∧ (pre = [] → w' = Shop.opening).
Proof.
  apply (oversell_without_preorder Shop.apples25 Shop.opening).
  - intros it Hit. apply list_elem_of_singleton in Hit as ->.
    split; [by eexists | simpl; lia].
  - exists (Shop.line "prod_001" "Apple" 25 3.5), Shop.apple.
    split_and!; [by left | done | simpl; lia].
Defined.

(** C1 as stated fails: with 5 apples and then 25 bananas ordered against 20
    of each, the call is refused for the bananas, yet the 5 apples stay
    taken off the shelf. *)
Lemma oversell_keeps_earlier_decrements :
  let r := validate_and_place_order Shop.apples5_bananas25 false Shop.opening in
  (∃ it p, it ∈ items Shop.apples5_bananas25
           ∧ products Shop.opening !! product_id it = Some p
           ∧ stock_quantity p < quantity it)
  ∧ r.2 = Return (Error "Only 20 unit(s) available." 20 true)
  ∧ orders r.1 = orders Shop.opening
  ∧ stock_of (products Shop.opening) "prod_001" = Some 20
  ∧ stock_of (products r.1) "prod_001" = Some 15
  ∧ ¬ (∀ it, it ∈ items Shop.apples5_bananas25 →
         stock_of (products r.1) (product_id it)
         = stock_of (products Shop.opening) (product_id it)).
Proof.
  split_and!.
  - exists (Shop.line "prod_002" "Banana" 25 2.8), Shop.banana.
    split_and!; [by right; left | done | simpl; lia].
  - by vm_compute.
  - by vm_compute.
  - by vm_compute.
  - by vm_compute.
  - intros H. specialize (H (Shop.line "prod_001" "Apple" 5 3.5)).
    vm_compute in H. discriminate H. by left.
Qed.

(** ** Orders that the stock covers *)

(** C3, as the code has it.  Without pre-order, an order whose items are
    covered by the stock (each item finds its product, and its quantity
    together with the quantities of the earlier items on the same product is
    at most the stock before the call) succeeds: every product loses exactly
    what the items of the order request of it, and the order is stored under
    its id, with its invoice written. *)
Theorem covered_order_is_placed (o : order) (w : world) :
  covered (items o) (products w) →
  ∃ warnings w',
    validate_and_place_order o false w
    = (w', Return (Success warnings (order_id o)
                           ("invoice_" +:+ order_id o +:+ ".pdf")))
    ∧ products w' = ship (items o) (products w)
    ∧ (∀ k p, products w !! k = Some p →
         stock_of (products w') k
         = Some (stock_quantity p - demand (items o) k))
    ∧ orders w' = <[order_id o := o]> (orders w)
    ∧ orders w' !! order_id o = Some o
    ∧ pdfs w' = pdfs w ++ [InvoicePdf o].
Proof.
  intros Hc.
  destruct (order_loop_covered false (items o) (products w) [] Hc) as [ws Hloop].
  exists ws. eexists. rewrite (place_fallthrough _ _ _ _ _ Hloop). simpl.
  split_and!; try done.
  - intros k p Hk. unfold stock_of. simpl. by rewrite lookup_ship, Hk.
  - apply lookup_insert_eq.
Qed.

(** An instance: 12 apples against a shelf of 20. *)
Lemma covered_order_is_placed_witness :
  covered (items Shop.ann12) (products Shop.opening)
  ∧ ∃ warnings w',
      validate_and_place_order Shop.ann12 false Shop.opening
      = (w', Return (Success warnings (order_id Shop.ann12)
                             ("invoice_" +:+ order_id Shop.ann12 +:+ ".pdf")))
      ∧ products w' = ship (items Shop.ann12) (products Shop.opening)
      ∧ (∀ k p, products Shop.opening !! k = Some p →
           stock_of (products w') k
           = Some (stock_quantity p - demand (items Shop.ann12) k))
      ∧ orders w' = <[order_id Shop.ann12 := Shop.ann12]> (orders Shop.opening)
      ∧ orders w' !! order_id Shop.ann12 = Some Shop.ann12
      ∧ pdfs w' = pdfs Shop.opening ++ [InvoicePdf Shop.ann12].
Proof.
  assert (covered (items Shop.ann12) (products Shop.opening)) as Hc.
  { apply covered_distinct.
    - simpl. apply NoDup_singleton.
    - intros it Hit. apply list_elem_of_singleton in Hit as ->.
      exists Shop.apple. split; [done | simpl; lia]. }
  split; [exact Hc | exact (covered_order_is_placed Shop.ann12 Shop.opening Hc)].
Defined.

(** C3 as stated fails when a product occurs twice: each of the two items
    asks for 12 apples, no more than the 20 in stock, yet the second one is
    refused, against the 8 apples that the first one left, and no order is
    stored. *)
Lemma twice_twelve_is_refused :
  let r := validate_and_place_order Shop.apples12_twice false Shop.opening in
  (∀ it, it ∈ items Shop.apples12_twice →
     ∃ p, products Shop.opening !! product_id it = Some p
          ∧ quantity it ≤ stock_quantity p)
  ∧ r.2 = Return (Error "Only 8 unit(s) available." 8 true)
  ∧ orders r.1 !! order_id Shop.apples12_twice = None
  ∧ stock_of (products r.1) "prod_001" = Some 8.
Proof.
  split_and!.
  - intros it Hit. exists Shop.apple.
    apply elem_of_cons in Hit as [->|Hit];
      [|apply list_elem_of_singleton in Hit as ->];
      (split; [done | simpl; lia]).
  - by vm_compute.
  - by vm_compute.
  - by vm_compute.
Qed.

(** ** Pre-order *)

(** C4.  With pre-order allowed and every item naming an existing product:
    when the loop reaches an item [it] (after the items [pre]) and reads a
    stock smaller than the quantity of [it], that turn writes the stock 0
    and appends the pre-order warning for the missing units followed by the
    low-stock alert with 0 left; the call succeeds, its warnings hold these
    two in a row, the order is stored, and the product is still at 0 after
    the call when no later item of the order has a negative quantity for
    it. *)
Theorem preorder_sells_out (o : order) (w : world)
    (pre post : list item) (it : item)
    (ps1 : gmap string product) (ws1 : list string) (p : product) :
  items o = pre ++ it :: post →
  (∀ i, i ∈ items o → is_Some (products w !! product_id i)) →
  order_loop true pre (products w) [] = (ps1, Fallthrough ws1) →
  ps1 !! product_id it = Some p →
  stock_quantity p < quantity it →
  ∃ ps2 ws3 w',
    process_item true it ps1 ws1
    = (ps2, Fallthrough
              (ws1 ++ [preorder_warning (quantity it) (stock_quantity p);
                       "Low stock alert: " +:+ name p +:+ " (0 left)"]))
    ∧ stock_of ps2 (product_id it) = Some 0
    ∧ validate_and_place_order o true w
      = (w', Return (Success
                (ws1 ++ [preorder_warning (quantity it) (stock_quantity p);
                         "Low stock alert: " +:+ name p +:+ " (0 left)"]
                     ++ ws3)
                (order_id o) ("invoice_" +:+ order_id o +:+ ".pdf")))
    ∧ orders w' !! order_id o = Some o
    ∧ ((∀ i, i ∈ post → product_id i = product_id it → 0 ≤ quantity i) →
       stock_of (products w') (product_id it) = Some 0).
Proof.
  intros Hsplit Hex Hpre Hp Hlt.
  pose proof (process_item_preorder it ps1 ws1 p Hp Hlt) as Hturn.
  set (ps2 := <[product_id it := set_stock p 0]> ps1) in *.
  set (two := [preorder_warning (quantity it) (stock_quantity p);
               "Low stock alert: " +:+ name p +:+ " (0 left)"]) in *.
  assert (∀ i, i ∈ post → is_Some (ps2 !! product_id i)) as Hex2.
  { intros i Hi.
    rewrite (process_item_keys _ _ _ _ _ _ (product_id i) Hturn).
    rewrite (order_loop_keys _ _ _ _ _ _ (product_id i) Hpre).
    apply Hex. rewrite Hsplit. apply elem_of_app. right. by right. }
  destruct (order_loop_preorder post ps2 [] Hex2) as (ps3 & ws3 & Hpost).
  assert (order_loop true (items o) (products w) []
          = (ps3, Fallthrough (ws1 ++ two ++ ws3))) as Hloop.
  { rewrite Hsplit, order_loop_app, Hpre. simpl. rewrite Hturn.
    rewrite order_loop_warnings, Hpost. by rewrite <- app_assoc. }
  assert (stock_of ps2 (product_id it) = Some 0) as Hzero.
  { unfold stock_of, ps2. by rewrite lookup_insert_eq. }
  exists ps2, ws3. eexists. rewrite (place_fallthrough _ _ _ _ _ Hloop).
  simpl. split_and!; try done.
  - apply lookup_insert_eq.
  - intros Hq. by apply (order_loop_sold_out _ _ _ _ _ _ _ Hpost).
Qed.

(** An instance: 25 apples against a shelf of 20, pre-order allowed. *)
Lemma preorder_sells_out_witness :
  ∃ ps2 ws3 w',
    process_item true (Shop.line "prod_001" "Apple" 25 3.5)
                 (products Shop.opening) []
    = (ps2, Fallthrough ["Pre-order placed for 5 unit(s)";
                         "Low stock alert: Apple (0 left)"])
    ∧ stock_of ps2 "prod_001" = Some 0
    ∧ validate_and_place_order Shop.apples25 true Shop.opening
      = (w', Return (Success
                (["Pre-order placed for 5 unit(s)";
                  "Low stock alert: Apple (0 left)"] ++ ws3)
                "order_2024-05-01_ann@x.org"
                "invoice_order_2024-05-01_ann@x.org.pdf"))
    ∧ orders w' !! "order_2024-05-01_ann@x.org" = Some Shop.apples25
    ∧ ((∀ i, i ∈ [] → product_id i = "prod_001" → 0 ≤ quantity i) →
       stock_of (products w') "prod_001" = Some 0).
Proof.
  apply (preorder_sells_out Shop.apples25 Shop.opening [] []
           (Shop.line "prod_001" "Apple" 25 3.5)
           (products Shop.opening) [] Shop.apple).
  - reflexivity.
  - intros i Hi. apply list_elem_of_singleton in Hi as ->. by eexists.
  - reflexivity.
  - reflexivity.
  - simpl. lia.
Defined.

(** ** Stock is never negative *)

Section stock_invariant.

Lemma nonneg_insert ps k p :
  nonneg ps → 0 ≤ stock_quantity p → nonneg (<[k := p]> ps).
Proof.
  intros Hps Hp k' p'. rewrite lookup_insert.
  case_decide; [by intros [= <-] | apply Hps].
Qed.

(** What a turn writes is never negative, whatever it read. *)
Lemma check_item_nonneg b it p ws p' ws' :
  check_item b it p ws = inr (p', ws') → 0 ≤ stock_quantity p'.
Proof.
  unfold check_item. repeat case_match; intros [= <- _]; simpl; lia.
Qed.

Lemma process_item_nonneg b it ps ws ps' fl :
  nonneg ps → process_item b it ps ws = (ps', fl) → nonneg ps'.
Proof.
  intros Hps. unfold process_item.
  destruct (ps !! product_id it) as [p|]; [|by intros [= <- _]].
  destruct (check_item b it p ws) as [r|[p' ws']] eqn:Hc;
    intros [= <- _]; [done |].
  apply nonneg_insert; [done |]. by eapply check_item_nonneg.
Qed.

Lemma order_loop_nonneg b its ps ws ps' fl :
  nonneg ps → order_loop b its ps ws = (ps', fl) → nonneg ps'.
Proof.
  revert ps ws. induction its as [|it its IH]; intros ps ws Hps; simpl.
  - by intros [= <- _].
  - destruct (process_item b it ps ws) as [ps1 fl1] eqn:H1.
    pose proof (process_item_nonneg _ _ _ _ _ _ Hps H1) as Hps1.
    destruct fl1; [by apply IH | by intros [= <- _]..].
Qed.

Lemma place_order_nonneg o b w :
  stock_nonneg w → stock_nonneg (validate_and_place_order o b w).1.
Proof.
  intros Hw. unfold validate_and_place_order.
  destruct (order_loop b (items o) (products w) []) as [ps fl] eqn:Hloop.
  pose proof (order_loop_nonneg _ _ _ _ _ _ Hw Hloop) as Hps.
  by destruct fl.
Qed.

Lemma adjust_stock_nonneg pid adjustment w :
  stock_nonneg w → stock_nonneg (adjust_stock pid adjustment w).1.
Proof.
  intros Hw. unfold adjust_stock.
  destruct (products w !! pid) as [p|]; [|done].
  apply nonneg_insert; [done |]. simpl. case_decide; lia.
Qed.

Lemma run_call_nonneg c w : stock_nonneg w → stock_nonneg (run_call c w).
Proof.
  destruct c; [apply place_order_nonneg | apply adjust_stock_nonneg].
Qed.

End stock_invariant.

(** C2.  From a world in which no stock is negative, no stock is negative
    after any call of any sequence of order placements and stock adjustments,
    whatever the calls return or raise.  In such a world, [adjust_stock] on
    an existing product returns and stores the sum clamped at 0, and a turn
    of the order loop either stops without writing or takes the smaller of
    the requested quantity and the stock it read. *)
Theorem stock_never_negative (cs : list call) (w : world) :
  stock_nonneg w →
  Forall stock_nonneg (history cs w)
  ∧ (∀ pid adjustment p,
       products w !! pid = Some p →
       (adjust_stock pid adjustment w).2
       = Return (Z.max 0 (stock_quantity p + adjustment))
       ∧ stock_of (products (adjust_stock pid adjustment w).1) pid
         = Some (Z.max 0 (stock_quantity p + adjustment)))
  ∧ (∀ b it ws p,
       products w !! product_id it = Some p →
       (process_item b it (products w) ws).1 = products w
       ∧ (∃ r, (process_item b it (products w) ws).2 = Returned r)
       ∨ ∃ taken,
           taken = Z.min (quantity it) (stock_quantity p)
           ∧ taken ≤ stock_quantity p
           ∧ stock_of (process_item b it (products w) ws).1 (product_id it)
             = Some (stock_quantity p - taken)
           ∧ ∃ ws', (process_item b it (products w) ws).2 = Fallthrough ws').
Proof.
  intros Hw. split_and!.
  - revert w Hw. induction cs as [|c cs IH]; intros w Hw; simpl.
    + constructor.
    + constructor; [by apply run_call_nonneg |].
      apply IH. by apply run_call_nonneg.
  - intros pid adjustment p Hp. unfold adjust_stock, stock_of. rewrite Hp.
    simpl. rewrite lookup_insert_eq. simpl.
    case_decide; split; do 2 f_equal; lia.
  - intros b it ws p Hp. unfold process_item, check_item, stock_of.
    rewrite Hp. case_decide; [destruct b |]; simpl.
    + right. exists (stock_quantity p). rewrite lookup_insert_eq. simpl.
      split_and!; [lia | lia | done | by eexists].
    + left. split; [done | by eexists].
    + right. exists (quantity it). rewrite lookup_insert_eq. simpl.
      split_and!; [lia | lia | done | by eexists].
Qed.

(** An instance: an order and two adjustments on the opening shop. *)
Lemma stock_never_negative_witness :
  Forall stock_nonneg
    (history [PlaceOrder Shop.apples25 true; AdjustStock "prod_002" (-50);
              AdjustStock "prod_001" 7] Shop.opening).
Proof.
  refine (proj1 (stock_never_negative
            [PlaceOrder Shop.apples25 true; AdjustStock "prod_002" (-50);
             AdjustStock "prod_001" 7] Shop.opening _)).
  intros k p. unfold Shop.opening. simpl.
  rewrite lookup_insert. case_decide; [intros [= <-]; simpl; lia |].
  rewrite lookup_insert. case_decide; [intros [= <-]; simpl; lia |].
  by rewrite lookup_empty.
Defined.

(** ** The order store *)

(** C8, as the code has it.  A successful placement stores the order with
    [upsert_item]: after two successful placements in a row, every record
    stored under an id other than the id of the second order is as the first
    placement left it; the first order is still there when the two ids
    differ, and it has been replaced by the second order when they
    coincide. *)
Theorem second_placement_upserts (o1 o2 : order) (b1 b2 : bool)
    (w w1 w2 : world) (ws1 ws2 : list string) (id1 id2 inv1 inv2 : string) :
  validate_and_place_order o1 b1 w = (w1, Return (Success ws1 id1 inv1)) →
  validate_and_place_order o2 b2 w1 = (w2, Return (Success ws2 id2 inv2)) →
  orders w2 = <[order_id o2 := o2]> (orders w1)
  ∧ (∀ k, k ≠ order_id o2 → orders w2 !! k = orders w1 !! k)
  ∧ (order_id o1 ≠ order_id o2 → orders w2 !! order_id o1 = Some o1)
  ∧ (order_id o1 = order_id o2 → orders w2 !! order_id o1 = Some o2).
Proof.
  intros H1 H2.
  apply place_success_inv in H1 as (ps1 & _ & -> & _).
  apply place_success_inv in H2 as (ps2 & _ & -> & _).
  simpl. split_and!.
  - done.
  - intros k Hk. by rewrite lookup_insert_ne.
  - intros Hne. rewrite lookup_insert_ne by done. apply lookup_insert_eq.
  - intros ->. apply lookup_insert_eq.
Qed.

(** An instance: Ann's order, then Bob's. *)
Lemma second_placement_upserts_witness :
  let r1 := validate_and_place_order Shop.ann12 false Shop.opening in
  let r2 := validate_and_place_order Shop.bob12 true r1.1 in
  orders r2.1 = <[order_id Shop.bob12 := Shop.bob12]> (orders r1.1)
  ∧ (∀ k, k ≠ order_id Shop.bob12 → orders r2.1 !! k = orders r1.1 !! k)
  ∧ (order_id Shop.ann12 ≠ order_id Shop.bob12 →
     orders r2.1 !! order_id Shop.ann12 = Some Shop.ann12)
  ∧ (order_id Shop.ann12 = order_id Shop.bob12 →
     orders r2.1 !! order_id Shop.ann12 = Some Shop.bob12).
Proof.
  intros r1 r2.
  apply (second_placement_upserts Shop.ann12 Shop.bob12 false true
           Shop.opening r1.1 r2.1
           ["Low stock alert: Apple (8 left)"]
           ["Pre-order placed for 4 unit(s)"; "Low stock alert: Apple (0 left)"]
           "order_2024-05-01_ann@x.org" "order_2024-05-01_bob@x.org"
           "invoice_order_2024-05-01_ann@x.org.pdf"
           "invoice_order_2024-05-01_bob@x.org.pdf").
  - vm_compute. reflexivity.
  - vm_compute. reflexivity.
Defined.

(** C8 as stated fails: a customer who submits two forms on the same day gets
    the same order id twice; both placements succeed, and the record of the
    first order (two apples) is replaced by the second (three bananas). *)
Lemma same_day_resubmission_overwrites :
  let r1 := customer_submit "2024-05-01" Shop.form_apples2 Shop.opening in
  let r2 := customer_submit "2024-05-01" Shop.form_bananas3 r1.1 in
  let k := "cust_order_2024-05-01_ann@x.org" in
  r1.2 = Return (Success [] k "invoice_cust_order_2024-05-01_ann@x.org.pdf")
  ∧ r2.2 = Return (Success [] k "invoice_cust_order_2024-05-01_ann@x.org.pdf")
  ∧ (items <$> orders r1.1 !! k) = Some [Shop.line "prod_001" "Apple" 2 3.5]
  ∧ (items <$> orders r2.1 !! k) = Some [Shop.line "prod_002" "Banana" 3 2.8]
  ∧ orders r2.1 !! k ≠ orders r1.1 !! k
  ∧ size (orders r2.1) = 1%nat.
Proof.
  split_and!; try (vm_compute; reflexivity).
  vm_compute. discriminate.
Qed.

(** * The summary engine *)

Section summary_engine.

Implicit Types (d : list (string * Z)) (os : list order) (its : list item).

Lemma dict_get_set d k v k' default :
  dict_get (dict_set d k v) k' default
  = if decide (k = k') then v else dict_get d k' default.
Proof.
  induction d as [|[k0 v0] d IH]; simpl.
  - by repeat case_decide.
  - repeat (case_decide; simpl; simplify_eq); try done.
Qed.

Lemma dict_set_keys d k v n :
  n ∈ (dict_set d k v).*1 ↔ n = k ∨ n ∈ d.*1.
Proof.
  induction d as [|[k0 v0] d IH]; simpl.
  - set_solver.
  - case_decide; simpl; set_solver.
Qed.

Lemma tally_order_get d its n :
  dict_get (fold_left tally_item its d) n 0 = dict_get d n 0 + units n its.
Proof.
  revert d. induction its as [|it its IH]; intros d; simpl; [lia |].
  rewrite IH. unfold tally_item. rewrite dict_get_set.
  case_decide; simplify_eq; lia.
Qed.


Lemma tally_get_from d os n :
  dict_get (fold_left tally_order os d) n 0 = dict_get d n 0 + units_sold n os.
Proof.
  revert d. induction os as [|o os IH]; intros d; simpl; [lia |].
  rewrite IH. unfold tally_order. rewrite tally_order_get. lia.
Qed.


(** The tally of a name is the number of units sold under it. *)
Lemma product_totals_get os n :
  dict_get (product_totals os) n 0 = units_sold n os.
Proof. unfold product_totals. by rewrite tally_get_from. Qed.


(** [max] returns one of its candidates, and none has a larger key. *)
Lemma max_from_spec (f : string → Z) best rest :
  max_from f best rest ∈ best :: rest
  ∧ ∀ k, k ∈ best :: rest → f k ≤ f (max_from f best rest).
Proof.
  revert best. induction rest as [|k rest IH]; intros best; simpl.
  - split; [by left |]. intros k Hk. apply list_elem_of_singleton in Hk as ->.
    lia.
  - case_decide.
    + destruct (IH k) as [Hin Hmax]. split; [by right |].
      intros k' [->|Hk']%elem_of_cons; [|by apply Hmax].
      assert (f k ≤ f (max_from f k rest)) by (apply Hmax; left). lia.
    + destruct (IH best) as [Hin Hmax]. split; [set_solver |].
      intros k' [->|[->|Hk']%elem_of_cons]%elem_of_cons.
      * apply Hmax. left.
      * assert (f best ≤ f (max_from f best rest)) by (apply Hmax; left). lia.
      * apply Hmax. by right.
Qed.


(** What a summary that is returned holds, and the one exception. *)
Lemma summarise_returns day os s :
  summarise day os = Return s →
  date s = day ∧ total_orders s = length os
  ∧ py_sum (order_total <$> os) = Return (total_revenue s)
  ∧ most_popular_product s = most_popular (product_totals os).
Proof.
  unfold summarise. destruct (py_sum _) as [total|e]; [|done].
  by intros [= <-].
Qed.

Lemma summarise_raises day os e :
  summarise day os = Raise e →
  e = OverflowError ∧ py_sum (order_total <$> os) = Raise OverflowError.
Proof.
  unfold summarise. destruct (py_sum _) as [total|e'] eqn:Hsum; [done |].
  intros [= <-]. apply py_sum_from_raises in Hsum as Hsum'. by subst.
Qed.

(** Totals that are ints are summed exactly. *)
Lemma revenue_ints os :
  (∀ o, o ∈ os → is_int (order_total o)) →
  order_total <$> os = Int <$> (whole <$> (order_total <$> os))
  ∧ revenue os = foldr Z.add 0 (whole <$> (order_total <$> os)).
Proof.
  induction os as [|o os IH]; intros Hint; [done |].
  destruct IH as [IH1 IH2]; [intros o' Ho'; apply Hint; by right |].
  destruct (Hint o) as [z Hz]; [by left |].
  cbn [fmap list_fmap revenue foldr]. fold (fmap order_total os).
  fold (fmap whole (order_total <$> os)).
  fold (fmap Int (whole <$> (order_total <$> os))).
  rewrite <- IH1, <- IH2, Hz. done.
Qed.

Lemma summarise_ints day os :
  (∀ o, o ∈ os → is_int (order_total o)) →
  summarise day os
  = Return (Summary day (length os) (Int (revenue os))
                    (most_popular (product_totals os))).
Proof.
  intros [Hl Hr]%revenue_ints. unfold summarise, py_sum.
  rewrite Hl, py_sum_from_ints, <- Hr. done.
Qed.

(** The exact sums do not depend on the order in which the query lists the
    orders. *)
Lemma revenue_perm os1 os2 : os1 ≡ₚ os2 → revenue os1 = revenue os2.
Proof. induction 1; simpl; lia. Qed.

Lemma units_sold_perm n os1 os2 :
  os1 ≡ₚ os2 → units_sold n os1 = units_sold n os2.
Proof. induction 1; simpl; lia. Qed.

(** The query lists the stored orders of the day, each once. *)
Lemma query_items_elem (m : gmap string order) day o :
  o ∈ query_items m day ↔ (∃ k, m !! k = Some o) ∧ order_date o = day.
Proof.
  unfold query_items. rewrite list_elem_of_filter, list_elem_of_fmap. split.
  - intros [Hd ([k o'] & -> & Hin)]. apply elem_of_map_to_list in Hin. eauto.
  - intros [[k Hk] Hd]. split; [done |]. exists (k, o).
    split; [done |]. by apply elem_of_map_to_list.
Qed.





End summary_engine.



(** ** The stored order is the requested one *)



(** * Storing a summary *)

Section summary_store.

Implicit Types (srv : sql_server) (s : summary) (w : world)
               (rows : list summary).

Lemma rows_for_absent day rows :
  ¬ Exists (λ r, date r = day) rows ↔ rows_for day rows = 0%nat.
Proof.
  unfold rows_for. rewrite length_zero_iff_nil. split.
  - intros Hno. apply elem_of_nil_inv. intros r [Hd Hr]%list_elem_of_filter.
    apply Hno, Exists_exists. eauto.
  - intros Hnil (r & Hr & Hd)%Exists_exists.
    assert (r ∈ filter (λ r, date r = day) rows) as Hin
      by by apply list_elem_of_filter.
    rewrite Hnil in Hin. by apply elem_of_nil in Hin.
Qed.

(** The statement leaves a day that has a row alone, and gives a day that
    has none exactly one. *)
Lemma insert_if_absent_rows s rows :
  rows_for (date s) (insert_if_absent s rows)
  = if decide (rows_for (date s) rows = 0%nat) then 1%nat
    else rows_for (date s) rows.
Proof.
  unfold insert_if_absent. destruct (decide (Exists _ rows)) as [Hex|Hno].
  - rewrite decide_False; [done |]. by intros H0%rows_for_absent.
  - apply rows_for_absent in Hno as H0. rewrite decide_True by done.
    unfold rows_for in *. rewrite filter_app, length_app, H0.
    rewrite filter_cons, decide_True by done. done.
Qed.

Lemma insert_if_absent_other s rows day :
  day ≠ date s → rows_for day (insert_if_absent s rows) = rows_for day rows.
Proof.
  intros Hne. unfold insert_if_absent. case_decide; [done |].
  unfold rows_for. rewrite filter_app, length_app, filter_cons.
  rewrite decide_False by done. simpl. lia.
Qed.

Lemma insert_if_absent_present s rows :
  rows_for (date s) rows ≠ 0%nat → insert_if_absent s rows = rows.
Proof.
  intros Hn. unfold insert_if_absent. case_decide as Hex; [done |].
  by apply rows_for_absent in Hex.
Qed.



(** With a writer that returns, the call is [store_summary]. *)
Lemma store_summary_with_returning srv wr s w :
  in_try wr = None → in_except wr = None →
  store_summary_with srv wr s w = store_summary srv s w.
Proof.
  unfold store_summary_with, store_summary, store_summary_try_with,
    store_summary_try, get_sql_cursor, summary_pdf_or_raise.
  destruct wr as [a1 a2]. simpl. intros -> ->.
  destruct srv as [[c|] [e|] [m|]], w as [ps os [] rows fs out]; done.
Qed.

(** The three ways in which a call ends: the write and the artifact of the
    [try] went through; something in the [try] raised and the artifact call
    of the [except] branch returns; or that call raises too. *)
Lemma store_summary_with_saved srv wr s w :
  sql_succeeds srv w = true → in_try wr = None →
  store_summary_with srv wr s w
  = (World (products w) (orders w) true
           (insert_if_absent s (daily_summary w))
           (pdfs w ++ [SummaryPdf s]) (stdout w),
     Return true).
Proof.
  unfold sql_succeeds, store_summary_with, store_summary_try_with,
    get_sql_cursor, summary_pdf_or_raise.
  destruct wr as [a1 a2]. simpl. intros Hup ->.
  destruct srv as [[c|] [e|] [m|]], w as [ps os [] rows fs out];
    simpl in *; simplify_eq; done.
Qed.

Lemma store_summary_with_late srv wr s w text :
  sql_succeeds srv w = true → in_try wr = Some text →
  store_summary_with srv wr s w
  = let w1 := World (products w) (orders w) true
                    (insert_if_absent s (daily_summary w)) (pdfs w)
                    (stdout w ++ ["⚠ Azure SQL unavailable: " +:+ text]) in
    match in_except wr with
    | None => (add_pdf (SummaryPdf s) w1, Return false)
    | Some text' => (w1, Raise (PdfError text'))
    end.
Proof.
  unfold sql_succeeds, store_summary_with, store_summary_try_with,
    get_sql_cursor, summary_pdf_or_raise.
  destruct wr as [a1 [t2|]]; simpl; intros Hup ->;
    destruct srv as [[c|] [e|] [m|]], w as [ps os [] rows fs out];
    simpl in *; simplify_eq; done.
Qed.

Lemma store_summary_with_down srv wr s w :
  sql_succeeds srv w = false →
  ∃ conn text,
    store_summary_with srv wr s w
    = let w1 := World (products w) (orders w) conn (daily_summary w) (pdfs w)
                      (stdout w ++ ["⚠ Azure SQL unavailable: " +:+ text]) in
      match in_except wr with
      | None => (add_pdf (SummaryPdf s) w1, Return false)
      | Some text' => (w1, Raise (PdfError text'))
      end.
Proof.
  unfold sql_succeeds, store_summary_with, store_summary_try_with,
    get_sql_cursor, summary_pdf_or_raise.
  destruct wr as [a1 [t2|]]; simpl; intros Hup;
    destruct srv as [[c|] [e|] [m|]], w as [ps os [] rows fs out];
    simpl in *; simplify_eq; by eexists _, _.
Qed.

(** What a call does to the stores and what it answers, by what happens to
    the write and to the artifact calls. *)
Lemma store_summary_with_outcomes srv wr s w :
  let r := store_summary_with srv wr s w in
  let saved := sql_succeeds srv w in
  products r.1 = products w ∧ orders r.1 = orders w
  ∧ daily_summary r.1
    = (if saved then insert_if_absent s (daily_summary w)
       else daily_summary w)
  ∧ (r.2 = Return true ↔ saved = true ∧ in_try wr = None)
  ∧ (r.2 = Return true →
     pdfs r.1 = pdfs w ++ [SummaryPdf s] ∧ stdout r.1 = stdout w)
  ∧ (r.2 = Return false
     ↔ (saved = false ∨ in_try wr ≠ None) ∧ in_except wr = None)
  ∧ (r.2 = Return false →
     pdfs r.1 = pdfs w ++ [SummaryPdf s]
     ∧ ∃ text,
         stdout r.1 = stdout w ++ ["⚠ Azure SQL unavailable: " +:+ text])
  ∧ (∀ e, r.2 = Raise e
          ↔ (saved = false ∨ in_try wr ≠ None)
            ∧ ∃ text, in_except wr = Some text ∧ e = PdfError text)
  ∧ (∀ e, r.2 = Raise e →
       pdfs r.1 = pdfs w
       ∧ ∃ text,
           stdout r.1 = stdout w ++ ["⚠ Azure SQL unavailable: " +:+ text]).
Proof.
  intros r saved. unfold r, saved. clear r saved.
  destruct (sql_succeeds srv w) eqn:Hup.
  - destruct (in_try wr) as [text|] eqn:Htry.
    + rewrite (store_summary_with_late _ _ _ _ _ Hup Htry).
      destruct (in_except wr) as [text'|]; cbn;
        split_and!; try done; try naive_solver.
    + rewrite (store_summary_with_saved _ _ _ _ Hup Htry). cbn.
      split_and!; try done; try naive_solver.
  - destruct (store_summary_with_down _ wr s _ Hup) as (conn & text & ->).
    destruct (in_except wr) as [text'|]; cbn;
      split_and!; try done; try naive_solver.
Qed.

End summary_store.



(** C6.  Two calls of [store_summary] with summaries of the same day, on a
    table that holds at most one row for that day, when the write of the
    first or of the second call goes through: the table holds exactly one
    row for the day in the end, and as many rows as before for every other
    day; when the write of the first call goes through, the table holds that
    row after it and the second call leaves the table as it is; the artifact
    generator is called by both calls: each call that returns has written
    its artifact, and a call raises only what the generator raised. *)
Theorem store_summary_twice (srv1 srv2 : sql_server) (wr1 wr2 : pdf_writer)
    (s1 s2 : summary) (w : world) :
  date s1 = date s2 →
  (rows_for (date s1) (daily_summary w) ≤ 1)%nat →
  sql_succeeds srv1 w = true
  ∨ sql_succeeds srv2 (store_summary_with srv1 wr1 s1 w).1 = true →
  let r1 := store_summary_with srv1 wr1 s1 w in
  let r2 := store_summary_with srv2 wr2 s2 r1.1 in
  rows_for (date s1) (daily_summary r2.1) = 1%nat
  ∧ (∀ day, day ≠ date s1 →
       rows_for day (daily_summary r2.1) = rows_for day (daily_summary w))
  ∧ (sql_succeeds srv1 w = true →
     daily_summary r1.1 = insert_if_absent s1 (daily_summary w)
     ∧ rows_for (date s1) (daily_summary r1.1) = 1%nat
     ∧ daily_summary r2.1 = daily_summary r1.1)
  ∧ (∀ ok1 ok2, r1.2 = Return ok1 → r2.2 = Return ok2 →
       pdfs r2.1 = pdfs w ++ [SummaryPdf s1; SummaryPdf s2])
  ∧ (∀ e, r1.2 = Raise e →
       ∃ text, in_except wr1 = Some text ∧ e = PdfError text)
  ∧ (∀ e, r2.2 = Raise e →
       ∃ text, in_except wr2 = Some text ∧ e = PdfError text)
  ∧ (in_try wr1 = None → in_try wr2 = None →
     sql_succeeds srv1 w = true → sql_succeeds srv2 r1.1 = true →
     r1.2 = Return true ∧ r2.2 = Return true).
Proof.
  intros Hday Hone Hup r1 r2.
  destruct (store_summary_with_outcomes srv1 wr1 s1 w)
    as (_ & _ & Hrows1 & Htrue1 & Htrue1' & _ & Hfalse1' & Hraise1 & _).
  destruct (store_summary_with_outcomes srv2 wr2 s2 r1.1)
    as (_ & _ & Hrows2 & Htrue2 & Htrue2' & _ & Hfalse2' & Hraise2 & _).
  fold r1 in Hup, Hrows1, Htrue1, Htrue1', Hfalse1', Hraise1.
  fold r1 r2 in Hrows2, Htrue2, Htrue2', Hfalse2', Hraise2.
  assert (∀ ok, r1.2 = Return ok → pdfs r1.1 = pdfs w ++ [SummaryPdf s1])
    as Hpdf1.
  { intros [] Hr; [by apply Htrue1' | by apply Hfalse1']. }
  assert (∀ ok, r2.2 = Return ok → pdfs r2.1 = pdfs r1.1 ++ [SummaryPdf s2])
    as Hpdf2.
  { intros [] Hr; [by apply Htrue2' | by apply Hfalse2']. }
  assert (rows_for (date s1) (daily_summary r1.1)
          = if sql_succeeds srv1 w then 1%nat
            else rows_for (date s1) (daily_summary w)) as Hn1.
  { rewrite Hrows1. destruct (sql_succeeds srv1 w); [|done].
    rewrite insert_if_absent_rows. case_decide; lia. }
  assert (sql_succeeds srv1 w = true →
          daily_summary r2.1 = daily_summary r1.1) as Hsame.
  { intros H1. rewrite H1 in Hn1. rewrite Hrows2.
    destruct (sql_succeeds srv2 r1.1); [|done].
    apply insert_if_absent_present. rewrite <- Hday. lia. }
  split_and!.
  - destruct (sql_succeeds srv1 w) eqn:H1.
    + by rewrite Hsame.
    + destruct Hup as [|H2]; [done |]. rewrite Hrows2, H2.
      rewrite Hday in Hn1, Hone |- *. rewrite insert_if_absent_rows.
      case_decide; lia.
  - intros day Hne. rewrite Hrows2, Hrows1.
    destruct (sql_succeeds srv2 r1.1), (sql_succeeds srv1 w);
      rewrite ?insert_if_absent_other by congruence; done.
  - intros H1. split_and!; [by rewrite Hrows1, H1 | by rewrite Hn1, H1 | auto].
  - intros ok1 ok2 Hr1 Hr2.
    by rewrite (Hpdf2 _ Hr2), (Hpdf1 _ Hr1), <- app_assoc.
  - intros e He. by apply Hraise1 in He as [_ ?].
  - intros e He. by apply Hraise2 in He as [_ ?].
  - intros Ht1 Ht2 H1 H2. split; [by apply Htrue1 | by apply Htrue2].
Qed.

(** An instance: the noon and the evening summary of one day, the server up
    and the artifacts written; the table ends with the row of noon. *)
Lemma store_summary_twice_witness :
  let r1 := store_summary_with sql_up pdf_up Shop.noon Shop.opening in
  let r2 := store_summary_with sql_up pdf_up Shop.evening r1.1 in
  daily_summary Shop.opening = []
  ∧ daily_summary r2.1 = [Shop.noon]
  ∧ rows_for (date Shop.noon) (daily_summary r2.1) = 1%nat
  ∧ (∀ day, day ≠ date Shop.noon →
       rows_for day (daily_summary r2.1)
       = rows_for day (daily_summary Shop.opening))
  ∧ (sql_succeeds sql_up Shop.opening = true →
     daily_summary r1.1 = insert_if_absent Shop.noon (daily_summary Shop.opening)
     ∧ rows_for (date Shop.noon) (daily_summary r1.1) = 1%nat
     ∧ daily_summary r2.1 = daily_summary r1.1)
  ∧ (∀ ok1 ok2, r1.2 = Return ok1 → r2.2 = Return ok2 →
       pdfs r2.1
       = pdfs Shop.opening ++ [SummaryPdf Shop.noon; SummaryPdf Shop.evening])
  ∧ (∀ e, r1.2 = Raise e →
       ∃ text, in_except pdf_up = Some text ∧ e = PdfError text)
  ∧ (∀ e, r2.2 = Raise e →
       ∃ text, in_except pdf_up = Some text ∧ e = PdfError text)
  ∧ (in_try pdf_up = None → in_try pdf_up = None →
     sql_succeeds sql_up Shop.opening = true →
     sql_succeeds sql_up r1.1 = true →
     r1.2 = Return true ∧ r2.2 = Return true).
Proof.
  intros r1 r2. split; [reflexivity |]. split; [vm_compute; reflexivity |].
  apply (store_summary_twice sql_up sql_up pdf_up pdf_up Shop.noon
           Shop.evening Shop.opening).
  - reflexivity.
  - vm_compute. lia.
  - left. reflexivity.
Defined.

(** * Two placements on the same stores *)

Section two_calls.

Implicit Types (o : order) (b : bool) (w : world) (t : thread).

Lemma set_products_same w : set_products (products w) w = w.
Proof. by destruct w. Qed.

Lemma run_alone_finished n o b r w :
  run_alone n o b (Finished r) w = (Finished r, w).
Proof. induction n as [|n IH]; simpl; [done | apply IH]. Qed.

Lemma run_alone_add n m o b t w :
  run_alone (n + m) o b t w
  = let '(t', w') := run_alone n o b t w in run_alone m o b t' w'.
Proof.
  revert t w. induction n as [|n IH]; intros t w; simpl; [done |].
  destruct (thread_step o b t w) as [t' w']. apply IH.
Qed.

(** The operations of the loop, run alone, are the loop. *)
Lemma run_alone_loop o b its ws w :
  run_alone (2 * length its) o b (AtRead its ws) w
  = match order_loop b its (products w) ws with
    | (ps, Fallthrough ws') => (AtRead [] ws', set_products ps w)
    | (ps, Returned r) => (Finished (Return r), set_products ps w)
    | (ps, Raised e) => (Finished (Raise e), set_products ps w)
    end.
Proof.
  revert ws w. induction its as [|it its IH]; intros ws w.
  - simpl. by rewrite set_products_same.
  - replace (2 * length (it :: its))%nat with (S (S (2 * length its)))%nat
      by (simpl; lia).
    cbn [run_alone thread_step order_loop]. unfold process_item.
    destruct (products w !! product_id it) as [p|] eqn:Hp.
    + destruct (check_item b it p ws) as [r|[p' ws']].
      * cbn [thread_step]. rewrite run_alone_finished.
        by rewrite set_products_same.
      * cbn [thread_step]. rewrite Hp. rewrite IH. cbn [products set_products].
        by destruct (order_loop b its _ _) as [ps [?| |]].
    + cbn [thread_step]. rewrite run_alone_finished.
      by rewrite set_products_same.
Qed.

(** A call run alone to its end is [validate_and_place_order]. *)
Lemma run_alone_is_call o b w :
  run_alone (2 * length (items o) + 2) o b (start o) w
  = (Finished (validate_and_place_order o b w).2,
     (validate_and_place_order o b w).1).
Proof.
  rewrite run_alone_add. unfold start. rewrite run_alone_loop.
  unfold validate_and_place_order.
  destruct (order_loop b (items o) (products w) []) as [ps [ws| |]];
    [done | apply run_alone_finished..].
Qed.

Lemma first_runs o1 b1 o2 b2 n t1 t2 w :
  fold_left (duo_step o1 b1 o2 b2) (replicate n false) (Duo t1 t2 w)
  = let '(t1', w') := run_alone n o1 b1 t1 w in Duo t1' t2 w'.
Proof.
  revert t1 w. induction n as [|n IH]; intros t1 w; [done |].
  cbn [replicate fold_left run_alone].
  change (duo_step o1 b1 o2 b2 (Duo t1 t2 w) false)
    with (let '(t, w') := thread_step o1 b1 t1 w in Duo t t2 w').
  destruct (thread_step o1 b1 t1 w) as [t1' w']. apply IH.
Qed.

Lemma second_runs o1 b1 o2 b2 n t1 t2 w :
  fold_left (duo_step o1 b1 o2 b2) (replicate n true) (Duo t1 t2 w)
  = let '(t2', w') := run_alone n o2 b2 t2 w in Duo t1 t2' w'.
Proof.
  revert t2 w. induction n as [|n IH]; intros t2 w; [done |].
  cbn [replicate fold_left run_alone].
  change (duo_step o1 b1 o2 b2 (Duo t1 t2 w) true)
    with (let '(t, w') := thread_step o2 b2 t2 w in Duo t1 t w').
  destruct (thread_step o2 b2 t2 w) as [t2' w']. apply IH.
Qed.

(** The schedule that lets the first call finish before the second starts
    is the two calls one after the other. *)
Lemma serial_schedule o1 b1 o2 b2 w :
  run_schedule o1 b1 o2 b2
    (replicate (2 * length (items o1) + 2) false
     ++ replicate (2 * length (items o2) + 2) true) w
  = let r1 := validate_and_place_order o1 b1 w in
    let r2 := validate_and_place_order o2 b2 r1.1 in
    Duo (Finished r1.2) (Finished r2.2) r2.1.
Proof.
  unfold run_schedule. rewrite fold_left_app, first_runs, run_alone_is_call.
  by rewrite second_runs, run_alone_is_call.
Qed.

(** A call for a single item. *)
Lemma single_item_call o b w it p :
  items o = [it] →
  products w !! product_id it = Some p →
  validate_and_place_order o b w
  = if decide (stock_quantity p < quantity it) then
      if b then
        (World (<[product_id it := set_stock p 0]> (products w))
               (<[order_id o := o]> (orders w)) (sql_connected w)
               (daily_summary w) (pdfs w ++ [InvoicePdf o]) (stdout w),
         Return (Success
                   [preorder_warning (quantity it) (stock_quantity p);
                    "Low stock alert: " +:+ name p +:+ " (0 left)"]
                   (order_id o) ("invoice_" +:+ order_id o +:+ ".pdf")))
      else
        (w, Return (Error (only_available (stock_quantity p))
                          (stock_quantity p) true))
    else
      (World (<[product_id it
                := set_stock p (stock_quantity p - quantity it)]> (products w))
             (<[order_id o := o]> (orders w)) (sql_connected w)
             (daily_summary w) (pdfs w ++ [InvoicePdf o]) (stdout w),
       Return (Success
                 (alert (set_stock p (stock_quantity p - quantity it)) [])
                 (order_id o) ("invoice_" +:+ order_id o +:+ ".pdf"))).
Proof.
  intros Hits Hp. case_decide as Hq; [destruct b |].
  - apply place_fallthrough. rewrite Hits. simpl.
    by rewrite (process_item_preorder it _ [] p Hp Hq).
  - unfold validate_and_place_order. rewrite Hits. simpl.
    rewrite (process_item_oversell it _ [] p Hp Hq).
    by rewrite set_products_same.
  - apply place_fallthrough. rewrite Hits. simpl.
    rewrite (process_item_covered b it _ [] p Hp) by lia. done.
Qed.

(** One operation of a call keeps the stock of the container and of the
    local [product] of the call non-negative. *)
Lemma thread_step_nonneg o b t w :
  stock_nonneg w → thread_nonneg t →
  stock_nonneg (thread_step o b t w).2 ∧ thread_nonneg (thread_step o b t w).1.
Proof.
  intros Hw Ht. destruct t as [[|it rest] ws|k p rest ws|ws|r]; simpl.
  - done.
  - destruct (products w !! product_id it) as [p|]; [|done].
    destruct (check_item b it p ws) as [r|[p' ws']] eqn:Hc; [done |].
    split; [done |]. simpl. by eapply check_item_nonneg.
  - destruct (products w !! k) as [p0|]; [|done].
    split; [|done]. by apply nonneg_insert.
  - done.
  - done.
Qed.

Lemma duo_step_nonneg o1 b1 o2 b2 d who :
  stock_nonneg (shared d) → thread_nonneg (call1 d) → thread_nonneg (call2 d) →
  let d' := duo_step o1 b1 o2 b2 d who in
  stock_nonneg (shared d') ∧ thread_nonneg (call1 d')
  ∧ thread_nonneg (call2 d').
Proof.
  intros Hw H1 H2. unfold duo_step. destruct who.
  - destruct (thread_step_nonneg o2 b2 (call2 d) (shared d) Hw H2) as [? ?].
    by destruct (thread_step o2 b2 (call2 d) (shared d)).
  - destruct (thread_step_nonneg o1 b1 (call1 d) (shared d) Hw H1) as [? ?].
    by destruct (thread_step o1 b1 (call1 d) (shared d)).
Qed.

End two_calls.

(** C9, as the code has it.  Two orders of 12 units each for a product with
    20 in stock, their calls interleaved in any way (each call makes four
    store operations: read, replace, upsert, invoice).  When the first two
    operations belong to the same call, that call has written the stock back
    before the other reads it: its order succeeds in full and leaves 8, and
    the other is refused with 8 available and the stock stays at 8, or, with
    pre-order allowed, succeeds with a pre-order warning for 4 units and the
    stock goes to 0.  In every other interleaving both calls read 20 before
    either writes: both orders succeed in full, 24 units out of 20, and the
    stock ends at 8.  The stock is never negative. *)
Theorem two_twelves_interleaved (o1 o2 : order) (b1 b2 : bool) (w : world)
    (it1 it2 : item) (pid : string) (p : product) (schedule : list bool) :
  items o1 = [it1] → items o2 = [it2] →
  product_id it1 = pid → product_id it2 = pid →
  quantity it1 = 12 → quantity it2 = 12 →
  products w !! pid = Some p → stock_quantity p = 20 →
  moves false schedule = 4%nat → moves true schedule = 4%nat →
  let d := run_schedule o1 b1 o2 b2 schedule w in
  let filled o :=
    Finished (Return (Success ["Low stock alert: " +:+ name p +:+ " (8 left)"]
                              (order_id o)
                              ("invoice_" +:+ order_id o +:+ ".pdf"))) in
  let late o (b : bool) :=
    Finished (Return
      (if b then
         Success ["Pre-order placed for 4 unit(s)";
                  "Low stock alert: " +:+ name p +:+ " (0 left)"]
                 (order_id o) ("invoice_" +:+ order_id o +:+ ".pdf")
       else Error "Only 8 unit(s) available." 8 true)) in
  (∃ q, stock_of (products (shared d)) pid = Some q ∧ 0 ≤ q)
  ∧ match schedule with
    | false :: false :: _ =>
        call1 d = filled o1 ∧ call2 d = late o2 b2
        ∧ stock_of (products (shared d)) pid = Some (if b2 then 0 else 8)
    | true :: true :: _ =>
        call1 d = late o1 b1 ∧ call2 d = filled o2
        ∧ stock_of (products (shared d)) pid = Some (if b1 then 0 else 8)
    | _ =>
        call1 d = filled o1 ∧ call2 d = filled o2
        ∧ stock_of (products (shared d)) pid = Some 8
    end.
Proof.
  intros Hits1 Hits2 Hpid1 Hpid2 Hq1 Hq2 Hp H20 Hm1 Hm2 d filled late.
  assert (d = run_schedule o1 b1 o2 b2 schedule w) as Hd by reflexivity.
  clearbody d. subst filled late. revert d Hd.
  destruct it1 as [pid1 n1 q1 u1], it2 as [pid2 n2 q2 u2],
    p as [nm cat pr st sup], w as [ps os conn rows fs out].
  simpl in Hpid1, Hpid2, Hq1, Hq2, Hp, H20. subst pid1 pid2 q1 q2 st.
  unfold run_schedule, start. rewrite Hits1, Hits2. clear Hits1 Hits2.
  destruct schedule as [|[] [|[] schedule]];
    cbn [moves Bool.eqb Nat.add] in Hm1, Hm2; try discriminate;
    repeat match goal with
           | H : S _ = S _ |- _ => apply Nat.succ_inj in H
           end.
  - destruct b1; each_schedule Hm1 Hm2 ltac:(finish_schedule Hp).
  - each_schedule Hm1 Hm2 ltac:(finish_schedule Hp).
  - each_schedule Hm1 Hm2 ltac:(finish_schedule Hp).
  - destruct b2; each_schedule Hm1 Hm2 ltac:(finish_schedule Hp).
Qed.

(** An instance: Ann's call reads and writes back, then Bob's operations
    and the rest of Ann's alternate; no pre-order. *)
Lemma two_twelves_interleaved_witness :
  let d := run_schedule Shop.ann12 false Shop.bob12 false
             [false; false; true; false; true; false; true; true]
             Shop.opening in
  (∃ q, stock_of (products (shared d)) "prod_001" = Some q ∧ 0 ≤ q)
  ∧ call1 d
    = Finished (Return (Success ["Low stock alert: Apple (8 left)"]
                                "order_2024-05-01_ann@x.org"
                                "invoice_order_2024-05-01_ann@x.org.pdf"))
  ∧ call2 d = Finished (Return (Error "Only 8 unit(s) available." 8 true))
  ∧ stock_of (products (shared d)) "prod_001" = Some 8.
Proof.
  exact (two_twelves_interleaved Shop.ann12 Shop.bob12 false false
           Shop.opening
           (Shop.line "prod_001" "Apple" 12 3.5)
           (Shop.line "prod_001" "Apple" 12 3.5) "prod_001" Shop.apple
           [false; false; true; false; true; false; true; true]
           eq_refl eq_refl eq_refl eq_refl eq_refl eq_refl eq_refl eq_refl
           eq_refl eq_refl).
Defined.

(** X25.  Two calls on the same stores, their operations interleaved in any
    way and stopped anywhere, for any two orders: no stock level of the
    container is negative when none was. *)
Theorem interleavings_keep_stock_nonneg (o1 o2 : order) (b1 b2 : bool)
    (schedule : list bool) (w : world) :
  stock_nonneg w →
  stock_nonneg (shared (run_schedule o1 b1 o2 b2 schedule w)).
Proof.
  intros Hw. unfold run_schedule.
  assert (∀ d, stock_nonneg (shared d) → thread_nonneg (call1 d) →
               thread_nonneg (call2 d) →
               stock_nonneg
                 (shared (fold_left (duo_step o1 b1 o2 b2) schedule d)))
    as Hrun.
  { induction schedule as [|who schedule IH]; intros d Hd H1 H2; [done |].
    destruct (duo_step_nonneg o1 b1 o2 b2 d who Hd H1 H2) as (? & ? & ?).
    by apply IH. }
  by apply Hrun.
Qed.

(** An instance: the two orders of 12 apples, both reads first. *)
Lemma interleavings_keep_stock_nonneg_witness :
  stock_nonneg
    (shared (run_schedule Shop.ann12 false Shop.bob12 false
               [false; true; false; true; false; false; true; true]
               Shop.opening)).
Proof.
  apply interleavings_keep_stock_nonneg.
  intros k p. unfold Shop.opening. simpl.
  rewrite lookup_insert. case_decide; [intros [= <-]; simpl; lia |].
  rewrite lookup_insert. case_decide; [intros [= <-]; simpl; lia |].
  by rewrite lookup_empty.
Defined.

(** C9 as stated fails: when both calls read the stock before either writes
    it back, both orders succeed in full, 24 units are sold out of 20, and
    the stock ends at 8. *)
Lemma interleaved_twelves_both_succeed :
  let d := run_schedule Shop.ann12 false Shop.bob12 false
             [false; true; false; true; false; false; true; true]
             Shop.opening in
  call1 d
  = Finished (Return (Success ["Low stock alert: Apple (8 left)"]
                              "order_2024-05-01_ann@x.org"
                              "invoice_order_2024-05-01_ann@x.org.pdf"))
  ∧ call2 d
    = Finished (Return (Success ["Low stock alert: Apple (8 left)"]
                                "order_2024-05-01_bob@x.org"
                                "invoice_order_2024-05-01_bob@x.org.pdf"))
  ∧ stock_of (products Shop.opening) "prod_001" = Some 20
  ∧ stock_of (products (shared d)) "prod_001" = Some 8
  ∧ orders (shared d) !! "order_2024-05-01_ann@x.org" = Some Shop.ann12
  ∧ orders (shared d) !! "order_2024-05-01_bob@x.org" = Some Shop.bob12.
Proof. split_and!; vm_compute; reflexivity. Qed.

(** * More on the order engine *)

Section order_engine_more.

Implicit Types (ps : gmap string product) (its : list item)
               (ws : list string) (p : product) (it : item).

Lemma set_stock_twice p q q' : set_stock (set_stock p q) q' = set_stock p q'.
Proof. done. Qed.

(** What a turn can do to the container: nothing, or one new stock level. *)
Lemma process_item_cases b it ps ws ps' fl :
  process_item b it ps ws = (ps', fl) →
  ps' = ps
  ∨ ∃ p q, ps !! product_id it = Some p
           ∧ ps' = <[product_id it := set_stock p q]> ps
           ∧ (q = 0 ∧ stock_quantity p < quantity it
              ∨ q = stock_quantity p - quantity it
                ∧ quantity it ≤ stock_quantity p).
Proof.
  unfold process_item, check_item.
  destruct (ps !! product_id it) as [p|]; [|intros [= <- _]; by left].
  case_decide; [destruct b |]; intros [= <- _]; [right | by left | right].
  - exists p, 0. rewrite Z.sub_diag. split_and!; [done.. |]. left. lia.
  - exists p, (stock_quantity p - quantity it).
    split_and!; [done.. |]. right. lia.
Qed.

(** The loop changes nothing but stock levels, and only those of the
    products that its items name. *)
Lemma order_loop_frame b its ps ws ps' fl k :
  order_loop b its ps ws = (ps', fl) →
  (ps' !! k = None ∧ ps !! k = None
   ∨ ∃ p q, ps !! k = Some p ∧ ps' !! k = Some (set_stock p q))
  ∧ (k ∉ product_id <$> its → ps' !! k = ps !! k).
Proof.
  assert (∀ ps0, ps0 !! k = None ∧ ps0 !! k = None
                 ∨ ∃ p q, ps0 !! k = Some p ∧ ps0 !! k = Some (set_stock p q))
    as Hsame.
  { intros ps0. destruct (ps0 !! k) as [p|]; [right | by left].
    exists p, (stock_quantity p). by rewrite set_stock_same. }
  revert ps ws. induction its as [|it its IH]; intros ps ws; simpl.
  - intros [= <- _]. split; [apply Hsame | done].
  - destruct (process_item b it ps ws) as [ps1 fl1] eqn:H1.
    assert ((ps1 !! k = None ∧ ps !! k = None
             ∨ ∃ p q, ps !! k = Some p ∧ ps1 !! k = Some (set_stock p q))
            ∧ (k ≠ product_id it → ps1 !! k = ps !! k)) as [Hone Hoff].
    { apply process_item_cases in H1 as [->|(p & q & Hp & -> & _)].
      - split; [apply Hsame | done].
      - split; [|intros ?; by rewrite lookup_insert_ne].
        destruct (decide (product_id it = k)) as [<-|Hne].
        + right. exists p, q. by rewrite lookup_insert_eq.
        + rewrite lookup_insert_ne by done. apply Hsame. }
    rewrite not_elem_of_cons.
    destruct fl1 as [ws1| |].
    + intros [Htwo Hoff2]%IH. split.
      * destruct Htwo as [[-> H1n]|(p1 & q1 & Hp1 & ->)].
        -- destruct Hone as [[_ ->]|(p & q & _ & Hp)]; [by left | congruence].
        -- destruct Hone as [[Hn _]|(p & q & Hp & Hp')]; [congruence |].
           right. exists p, q1. split; [done |]. simplify_eq.
           by rewrite set_stock_twice.
      * intros [Hne Hnot]. rewrite Hoff2 by done. by apply Hoff.
    + intros [= <- _]. split; [done | intros [Hne _]; by apply Hoff].
    + intros [= <- _]. split; [done | intros [Hne _]; by apply Hoff].
Qed.

(** With no negative stock and no negative quantity, the loop only lowers
    stock levels, and never below 0. *)
Lemma order_loop_lowers b its ps ws ps' fl k p p' :
  nonneg ps →
  (∀ it, it ∈ its → 0 ≤ quantity it) →
  order_loop b its ps ws = (ps', fl) →
  ps !! k = Some p → ps' !! k = Some p' →
  0 ≤ stock_quantity p' ≤ stock_quantity p.
Proof.
  revert ps ws p. induction its as [|it its IH]; intros ps ws p Hps Hq; simpl.
  - intros [= <- _] Hp Hp'. simplify_eq. split; [by eapply Hps | lia].
  - destruct (process_item b it ps ws) as [ps1 fl1] eqn:H1.
    assert (0 ≤ quantity it) as Hq0 by (apply Hq; left).
    pose proof (process_item_nonneg _ _ _ _ _ _ Hps H1) as Hps1.
    assert (ps !! k = Some p →
            ∃ p1, ps1 !! k = Some p1
                  ∧ 0 ≤ stock_quantity p1 ≤ stock_quantity p) as Hstep.
    { intros Hp. pose proof (Hps _ _ Hp) as H0.
      apply process_item_cases in H1 as [->|(p0 & q & Hp0 & -> & Hcase)].
      - exists p. split; [done | lia].
      - destruct (decide (product_id it = k)) as [<-|Hne].
        + rewrite lookup_insert_eq. eexists; split; [done |].
          simplify_eq. simpl. lia.
        + rewrite lookup_insert_ne by done. exists p. split; [done | lia]. }
    destruct fl1 as [ws1| |].
    + intros Hloop Hp Hp'. destruct (Hstep Hp) as (p1 & Hp1 & Hle).
      assert (0 ≤ stock_quantity p' ≤ stock_quantity p1); [|lia].
      eapply (IH ps1 ws1 p1); eauto. intros i Hi. apply Hq. by right.
    + intros [= <- _] Hp Hp'. destruct (Hstep Hp) as (p1 & Hp1 & Hle).
      by simplify_eq.
    + intros [= <- _] Hp Hp'. destruct (Hstep Hp) as (p1 & Hp1 & Hle).
      by simplify_eq.
Qed.

(** With pre-order allowed, no negative stock and no negative quantity,
    the loop ends with every product at its stock less what the items
    request of it, or at 0 when they request more. *)
Lemma order_loop_preorder_max its ps ws :
  nonneg ps →
  (∀ it, it ∈ its → is_Some (ps !! product_id it) ∧ 0 ≤ quantity it) →
  ∃ ps' ws',
    order_loop true its ps ws = (ps', Fallthrough ws')
    ∧ ∀ k, ps' !! k
           = (λ p, set_stock p (Z.max 0 (stock_quantity p - demand its k)))
               <$> ps !! k.
Proof.
  revert ps ws. induction its as [|it its IH]; intros ps ws Hps Hwf; simpl.
  - exists ps, ws. split; [done |]. intros k.
    destruct (ps !! k) as [p|] eqn:Hp; [|done]. simpl.
    pose proof (Hps _ _ Hp). rewrite Z.sub_0_r, Z.max_r by lia.
    by rewrite set_stock_same.
  - destruct (Hwf it) as [[p Hp] Hq0]; [left |].
    pose proof (Hps _ _ Hp) as Hp0.
    set (m := Z.max 0 (stock_quantity p - quantity it)).
    assert (∃ ws1, process_item true it ps ws
                   = (<[product_id it := set_stock p m]> ps, Fallthrough ws1))
      as [ws1 ->].
    { unfold process_item, check_item. rewrite Hp. unfold m.
      case_decide; eexists.
      - by rewrite Z.sub_diag, Z.max_l by lia.
      - by rewrite Z.max_r by lia. }
    destruct (IH (<[product_id it := set_stock p m]> ps) ws1)
      as (ps' & ws' & -> & Hps').
    { apply nonneg_insert; [done |]. simpl. unfold m. lia. }
    { intros i Hi. destruct (Hwf i) as [Hi1 Hi2]; [by right |].
      split; [|done]. rewrite lookup_insert_is_Some.
      destruct (decide (product_id it = product_id i)); [by left | by right]. }
    exists ps', ws'. split; [done |]. intros k. rewrite Hps'.
    assert (0 ≤ demand its k) as Hd.
    { apply demand_nonneg. intros i Hi. apply Hwf. by right. }
    destruct (decide (product_id it = k)) as [<-|Hne].
    + rewrite lookup_insert_eq, Hp. cbn [fmap option_fmap option_map demand].
      rewrite set_stock_twice.
      f_equal. f_equal. cbn [stock_quantity set_stock]. unfold m. lia.
    + rewrite lookup_insert_ne by done. cbn [demand].
      destruct (ps !! k) as [p'|]; [|done].
      cbn [fmap option_fmap option_map]. by rewrite Z.add_0_l.
Qed.

(** A covered loop whose products all keep ten units or more raises no
    warning. *)
Lemma order_loop_quiet b its ps :
  covered its ps →
  (∀ it, it ∈ its → 0 ≤ quantity it) →
  (∀ it p, it ∈ its → ps !! product_id it = Some p →
     10 ≤ stock_quantity p - demand its (product_id it)) →
  order_loop b its ps [] = (ship its ps, Fallthrough []).
Proof.
  revert ps. induction its as [|it its IH]; intros ps Hc Hq Hten; simpl.
  - by rewrite ship_nil.
  - destruct (Hc [] it its eq_refl) as (p & Hp & _).
    destruct (proj1 (covered_cons _ _ _ _ Hp) Hc) as [Hle Hc1].
    rewrite (process_item_covered b it ps [] p Hp Hle).
    assert (0 ≤ demand its (product_id it)) as Hd.
    { apply demand_nonneg. intros i Hi. apply Hq. by right. }
    assert (10 ≤ stock_quantity p - demand (it :: its) (product_id it)) as H10
      by (apply Hten; [left | done]).
    cbn [demand] in H10. rewrite decide_True in H10 by done.
    unfold alert. cbn [stock_quantity set_stock].
    rewrite decide_False by lia.
    rewrite <- (ship_cons _ _ _ _ Hp). apply IH; [done | |].
    + intros i Hi. apply Hq. by right.
    + intros i p1 Hi Hp1.
      assert (i ∈ it :: its) as Hi' by by right.
      destruct (decide (product_id it = product_id i)) as [Heq|Hne].
      * rewrite <- Heq, lookup_insert_eq in Hp1. simplify_eq. simpl.
        rewrite Heq in Hp. specialize (Hten i p Hi' Hp).
        cbn [demand] in Hten. rewrite decide_True in Hten by done.
        rewrite <- Heq in *. lia.
      * rewrite lookup_insert_ne in Hp1 by done.
        specialize (Hten i p1 Hi' Hp1).
        cbn [demand] in Hten. rewrite decide_False in Hten by done. lia.
Qed.

End order_engine_more.

(** X1.  An item that names a product the container does not hold makes the
    call raise the not-found exception of [read_item] for that product id,
    with or without pre-order.  When the items before it are covered by the
    stock, they stay shipped; no order is stored and no invoice is
    written. *)
Theorem missing_product_raises (o : order) (b : bool) (w : world)
    (pre post : list item) (it : item) :
  items o = pre ++ it :: post →
  covered pre (products w) →
  products w !! product_id it = None →
  validate_and_place_order o b w
  = (World (ship pre (products w)) (orders w) (sql_connected w)
           (daily_summary w) (pdfs w) (stdout w),
     Raise (CosmosResourceNotFoundError (product_id it))).
Proof.
  intros Hsplit Hc Hnone.
  destruct (order_loop_covered b pre (products w) [] Hc) as [ws Hpre].
  unfold validate_and_place_order.
  rewrite Hsplit, order_loop_app, Hpre. simpl.
  unfold process_item. by rewrite lookup_ship, Hnone.
Qed.

(** An instance: 5 apples, then a product that does not exist. *)
Lemma missing_product_raises_witness :
  validate_and_place_order
    (Shop.order_of "order_2024-05-01_ann@x.org" "ann@x.org"
       [Shop.line "prod_001" "Apple" 5 3.5; Shop.line "prod_999" "Ghost" 1 1]
       1850)
    true Shop.opening
  = (World (ship [Shop.line "prod_001" "Apple" 5 3.5] (products Shop.opening))
           ∅ false [] [] [],
     Raise (CosmosResourceNotFoundError "prod_999")).
Proof.
  apply (missing_product_raises _ true Shop.opening
           [Shop.line "prod_001" "Apple" 5 3.5] []
           (Shop.line "prod_999" "Ghost" 1 1)).
  - reflexivity.
  - apply covered_distinct; [apply NoDup_singleton |].
    intros it Hit. apply list_elem_of_singleton in Hit as ->.
    exists Shop.apple. split; [done | simpl; lia].
  - reflexivity.
Defined.

(** X2.  Whatever a call returns or raises, and whatever the invoice writer
    does, the call changes nothing of a product but its stock level, adds
    and removes no product, leaves alone every product that no item names,
    and touches neither the SQL table nor standard output.  The order is
    stored exactly when the loop over its items ran to its end: the call
    then reports success, with the invoice written, when the writer
    returns, and raises what the writer raises, with the order stored and
    no invoice, when it does not.  Otherwise the call returns an error or
    raises a product that is not found, and the order store and the files
    are as before. *)
Theorem placement_frame (invoice : option string) (o : order) (b : bool)
    (w : world) :
  let r := validate_and_place_order_with invoice o b w in
  (∀ k, products r.1 !! k = None ∧ products w !! k = None
        ∨ ∃ p q, products w !! k = Some p
                 ∧ products r.1 !! k = Some (set_stock p q))
  ∧ (∀ k, k ∉ product_id <$> items o → products r.1 !! k = products w !! k)
  ∧ daily_summary r.1 = daily_summary w
  ∧ sql_connected r.1 = sql_connected w
  ∧ stdout r.1 = stdout w
  ∧ ((invoice = None
      ∧ (∃ ws, r.2 = Return (Success ws (order_id o)
                                     ("invoice_" +:+ order_id o +:+ ".pdf")))
      ∧ orders r.1 = <[order_id o := o]> (orders w)
      ∧ pdfs r.1 = pdfs w ++ [InvoicePdf o])
     ∨ (∃ text, invoice = Some text ∧ r.2 = Raise (PdfError text))
       ∧ orders r.1 = <[order_id o := o]> (orders w)
       ∧ pdfs r.1 = pdfs w
     ∨ ((∃ available,
           r.2 = Return (Error (only_available available) available true))
        ∨ ∃ k, r.2 = Raise (CosmosResourceNotFoundError k))
       ∧ orders r.1 = orders w ∧ pdfs r.1 = pdfs w).
Proof.
  intros r. unfold r, validate_and_place_order_with.
  destruct (order_loop b (items o) (products w) []) as [ps fl] eqn:Hloop.
  assert (∀ k, (ps !! k = None ∧ products w !! k = None
                ∨ ∃ p q, products w !! k = Some p ∧ ps !! k = Some (set_stock p q))
               ∧ (k ∉ product_id <$> items o → ps !! k = products w !! k))
    as Hframe.
  { intros k. by eapply order_loop_frame. }
  destruct fl as [ws|res|e]; [destruct invoice as [text|] |..]; simpl;
    split_and!; try done; try (intros k; by apply Hframe).
  - right. left. split_and!; [by eexists | done..].
  - left. split_and!; [done | by eexists | done..].
  - right. right. split_and!; try done. left.
    by apply order_loop_returned in Hloop as [a ->]; eexists.
  - right. right. split_and!; try done. right.
    by apply order_loop_raised in Hloop as [k ->]; eexists.
Qed.

(** An instance: five apples, and the invoice writer fails; the order is in
    the store, the shelf is lowered, and no invoice is written. *)
Lemma order_is_stored_before_its_invoice :
  let o := Shop.order_of "order_2024-05-01_ann@x.org" "ann@x.org"
             [Shop.line "prod_001" "Apple" 5 3.5] 17.5 in
  let r := validate_and_place_order_with (Some "disk full") o false
             Shop.opening in
  r.2 = Raise (PdfError "disk full")
  ∧ orders r.1 !! order_id o = Some o
  ∧ stock_of (products r.1) "prod_001" = Some 15
  ∧ pdfs r.1 = [].
Proof. split_and!; vm_compute; reflexivity. Qed.

(** X3.  When no stock is negative and no item has a negative quantity, a
    call never raises a stock level, and never takes one below 0, whatever it
    returns or raises. *)
Theorem placement_lowers_stock (o : order) (b : bool) (w : world)
    (k : string) (p p' : product) :
  stock_nonneg w →
  (∀ it, it ∈ items o → 0 ≤ quantity it) →
  products w !! k = Some p →
  products (validate_and_place_order o b w).1 !! k = Some p' →
  0 ≤ stock_quantity p' ≤ stock_quantity p.
Proof.
  intros Hw Hq Hp. unfold validate_and_place_order.
  destruct (order_loop b (items o) (products w) []) as [ps fl] eqn:Hloop.
  intros Hp'. eapply (order_loop_lowers b (items o) (products w) [] ps fl k);
    try done.
  by destruct fl.
Qed.

(** An instance: apples after 25 of them were pre-ordered. *)
Lemma placement_lowers_stock_witness :
  0 ≤ stock_quantity (set_stock Shop.apple 0) ≤ stock_quantity Shop.apple.
Proof.
  apply (placement_lowers_stock Shop.apples25 true Shop.opening "prod_001"
           Shop.apple (set_stock Shop.apple 0)).
  - intros k p. unfold Shop.opening. simpl.
    rewrite lookup_insert. case_decide; [intros [= <-]; simpl; lia |].
    rewrite lookup_insert. case_decide; [intros [= <-]; simpl; lia |].
    by rewrite lookup_empty.
  - intros it Hit. apply list_elem_of_singleton in Hit as ->. simpl. lia.
  - reflexivity.
  - vm_compute. reflexivity.
Defined.

(** X4.  With pre-order allowed, when every item names an existing product,
    no stock is negative and no quantity is negative, the call succeeds and
    leaves every product at its stock less the total that the order requests
    of it, or at 0 when the order requests more than the stock. *)
Theorem preorder_leaves_the_rest (o : order) (w : world) :
  stock_nonneg w →
  (∀ it, it ∈ items o →
     is_Some (products w !! product_id it) ∧ 0 ≤ quantity it) →
  ∃ ws w',
    validate_and_place_order o true w
    = (w', Return (Success ws (order_id o)
                           ("invoice_" +:+ order_id o +:+ ".pdf")))
    ∧ ∀ k p, products w !! k = Some p →
        products w' !! k
        = Some (set_stock p (Z.max 0 (stock_quantity p - demand (items o) k))).
Proof.
  intros Hw Hwf.
  destruct (order_loop_preorder_max (items o) (products w) [] Hw Hwf)
    as (ps & ws & Hloop & Hps).
  exists ws. eexists. rewrite (place_fallthrough _ _ _ _ _ Hloop).
  split; [done |]. intros k p Hk. simpl. by rewrite Hps, Hk.
Qed.

(** An instance: 12 apples twice, pre-order allowed, against 20. *)
Lemma preorder_leaves_the_rest_witness :
  ∃ ws w',
    validate_and_place_order Shop.apples12_twice true Shop.opening
    = (w', Return (Success ws (order_id Shop.apples12_twice)
                     ("invoice_" +:+ order_id Shop.apples12_twice +:+ ".pdf")))
    ∧ ∀ k p, products Shop.opening !! k = Some p →
        products w' !! k
        = Some (set_stock p
                  (Z.max 0 (stock_quantity p
                            - demand (items Shop.apples12_twice) k))).
Proof.
  apply (preorder_leaves_the_rest Shop.apples12_twice Shop.opening).
  - intros k p. unfold Shop.opening. simpl.
    rewrite lookup_insert. case_decide; [intros [= <-]; simpl; lia |].
    rewrite lookup_insert. case_decide; [intros [= <-]; simpl; lia |].
    by rewrite lookup_empty.
  - intros it Hit.
    apply elem_of_cons in Hit as [->|Hit];
      [|apply list_elem_of_singleton in Hit as ->];
      (split; [by eexists | simpl; lia]).
Defined.

(** X5.  An order that the stock covers, with no negative quantity, and that
    leaves ten units or more of every product it names, succeeds without any
    warning, with or without pre-order. *)
Theorem quiet_order (o : order) (b : bool) (w : world) :
  covered (items o) (products w) →
  (∀ it, it ∈ items o → 0 ≤ quantity it) →
  (∀ it p, it ∈ items o → products w !! product_id it = Some p →
     10 ≤ stock_quantity p - demand (items o) (product_id it)) →
  validate_and_place_order o b w
  = (World (ship (items o) (products w)) (<[order_id o := o]> (orders w))
           (sql_connected w) (daily_summary w) (pdfs w ++ [InvoicePdf o])
           (stdout w),
     Return (Success [] (order_id o) ("invoice_" +:+ order_id o +:+ ".pdf"))).
Proof.
  intros Hc Hq Hten. apply place_fallthrough. by apply order_loop_quiet.
Qed.

(** An instance: 5 apples against 20. *)
Lemma quiet_order_witness :
  let o := Shop.order_of "order_2024-05-01_ann@x.org" "ann@x.org"
             [Shop.line "prod_001" "Apple" 5 3.5] 1750 in
  (validate_and_place_order o false Shop.opening).2
  = Return (Success [] "order_2024-05-01_ann@x.org"
                    "invoice_order_2024-05-01_ann@x.org.pdf").
Proof.
  intros o. rewrite (quiet_order o false Shop.opening); [done | | |].
  - apply covered_distinct; [apply NoDup_singleton |].
    intros it Hit. apply list_elem_of_singleton in Hit as ->.
    exists Shop.apple. split; [done | simpl; lia].
  - intros it Hit. apply list_elem_of_singleton in Hit as ->. simpl. lia.
  - intros it p Hit. apply list_elem_of_singleton in Hit as ->.
    intros [= <-]. vm_compute. discriminate.
Defined.

(** * Stock adjustment and the order handlers *)

Section handlers.

Implicit Types (f : form) (w : world) (catalog : list (string * product)).

(** The loop of a handler writes the lines of the form and totals them
    line after line. *)
Lemma order_lines_spec catalog f its total :
  order_lines catalog f its total
  = match lines_total_from total (form_lines f catalog) with
    | Return total' => Return (its ++ form_lines f catalog, total')
    | Raise e => Raise e
    end.
Proof.
  revert its total. induction catalog as [|[k p] catalog IH]; intros its total.
  - simpl. by rewrite app_nil_r.
  - cbn [order_lines]. unfold form_lines. rewrite filter_cons. cbn [fst snd].
    case_decide; [|apply IH].
    rewrite fmap_cons. cbn [lines_total_from quantity unit_price fst snd].
    destruct (py_mul _ _) as [line_total|e]; [|done].
    destruct (py_add _ _) as [total'|e]; [|done].
    rewrite IH. unfold form_lines.
    destruct (lines_total_from _ _) as [t|e]; [|done].
    by rewrite <- app_assoc.
Qed.

Lemma lines_total_from_raises total its e :
  lines_total_from total its = Raise e → e = OverflowError.
Proof.
  revert total. induction its as [|it its IH]; intros total; [done |].
  cbn [lines_total_from].
  destruct (py_mul _ _) as [line_total|e1] eqn:Hmul;
    [|intros [= <-]; by eapply py_mul_raises].
  destruct (py_add _ _) as [total'|e2] eqn:Hadd;
    [apply IH | intros [= <-]; by eapply py_add_raises].
Qed.

(** Lines with int prices are totalled exactly. *)
Lemma lines_total_from_ints (z : Z) its :
  (∀ it, it ∈ its → is_int (unit_price it)) →
  lines_total_from (Int z) its
  = Return (Int (z + foldr Z.add 0
                       ((λ it, quantity it * whole (unit_price it)) <$> its))).
Proof.
  revert z. induction its as [|it its IH]; intros z Hint.
  - cbn. by rewrite Z.add_0_r.
  - destruct (Hint it) as [u Hu]; [by left |].
    cbn [lines_total_from fmap list_fmap foldr]. rewrite Hu.
    cbn [py_mul py_add whole]. rewrite IH by (intros; apply Hint; by right).
    fold (fmap (λ it, quantity it * whole (unit_price it)) its).
    by rewrite Z.add_assoc.
Qed.

(** The document of a handler, when the arithmetic returns, and the one
    exception otherwise. *)
Lemma build_order_cases prefix today f w :
  match build_order prefix today f w with
  | Return o =>
      o = Order (prefix +:+ today +:+ "_" +:+ form_email f) today
                (form_name f) (form_email f)
                (form_lines f (map_to_list (products w))) (order_total o)
                "norwood"
      ∧ lines_total (items o) = Return (order_total o)
  | Raise e =>
      e = OverflowError
      ∧ lines_total (form_lines f (map_to_list (products w)))
        = Raise OverflowError
  end.
Proof.
  unfold build_order, lines_total. rewrite order_lines_spec.
  destruct (lines_total_from _ _) as [total|e] eqn:Htotal; [done |].
  apply lines_total_from_raises in Htotal as Hee. by subst.
Qed.

Lemma build_order_returns prefix today f w o :
  build_order prefix today f w = Return o →
  order_id o = prefix +:+ today +:+ "_" +:+ form_email f
  ∧ order_date o = today
  ∧ items o = form_lines f (map_to_list (products w))
  ∧ lines_total (items o) = Return (order_total o).
Proof.
  intros Ho. pose proof (build_order_cases prefix today f w) as Hcases.
  rewrite Ho in Hcases. destruct Hcases as [-> Htotal]. done.
Qed.

Lemma build_order_raises prefix today f w e :
  build_order prefix today f w = Raise e → e = OverflowError.
Proof.
  intros Ho. pose proof (build_order_cases prefix today f w) as Hcases.
  rewrite Ho in Hcases. by destruct Hcases.
Qed.

Lemma form_lines_ids f catalog :
  product_id <$> form_lines f catalog
  = (filter (λ kp, 0 < form_qty f kp.1) catalog).*1.
Proof.
  unfold form_lines. rewrite <- list_fmap_compose. by apply list_fmap_ext.
Qed.

Lemma form_lines_NoDup f w :
  NoDup (product_id <$> form_lines f (map_to_list (products w))).
Proof.
  rewrite form_lines_ids.
  apply (sublist_NoDup _ ((map_to_list (products w)).*1));
    [apply NoDup_fst_map_to_list |].
  apply fmap_sublist, sublist_filter.
Qed.

Lemma form_lines_elem f w it :
  it ∈ form_lines f (map_to_list (products w))
  ↔ ∃ p, products w !! product_id it = Some p
         ∧ 0 < form_qty f (product_id it)
         ∧ it = Item (product_id it) (name p) (form_qty f (product_id it))
                     (price p).
Proof.
  unfold form_lines. rewrite list_elem_of_fmap. split.
  - intros ([k p] & -> & [Hq Hin%elem_of_map_to_list]%list_elem_of_filter).
    simpl in *. by exists p.
  - intros (p & Hp & Hq & Hit). exists (product_id it, p). split; [done |].
    apply list_elem_of_filter. split; [done | by apply elem_of_map_to_list].
Qed.

(** What the lines of a form request of a product. *)
Lemma form_lines_demand f w k p :
  products w !! k = Some p →
  demand (form_lines f (map_to_list (products w))) k = Z.max 0 (form_qty f k).
Proof.
  intros Hp. destruct (decide (0 < form_qty f k)) as [Hq|Hq].
  - assert (Item k (name p) (form_qty f k) (price p)
            ∈ form_lines f (map_to_list (products w))) as Hin.
    { apply form_lines_elem. exists p. by split_and!. }
    apply list_elem_of_split in Hin as (pre & post & Hsplit).
    pose proof (form_lines_NoDup f w) as Hnd.
    rewrite Hsplit in Hnd |- *. rewrite fmap_app, fmap_cons in Hnd.
    apply NoDup_app in Hnd as (_ & Hdisj & [Hpost _]%NoDup_cons).
    rewrite demand_app. cbn [demand product_id quantity].
    rewrite decide_True by done.
    rewrite (demand_absent pre), (demand_absent post); [lia | done |].
    intros Hin. apply (Hdisj _ Hin). left.
  - rewrite demand_absent; [lia |].
    intros (it & -> & Hit)%list_elem_of_fmap.
    apply form_lines_elem in Hit as (_ & _ & ? & _). lia.
Qed.

(** The lines of a form are covered as soon as no posted quantity exceeds
    the stock of its product. *)
Lemma form_lines_covered f w :
  (∀ k p, products w !! k = Some p → form_qty f k ≤ stock_quantity p) →
  covered (form_lines f (map_to_list (products w))) (products w).
Proof.
  intros Hle. apply covered_distinct; [apply form_lines_NoDup |].
  intros it (p & Hp & Hq & ->)%form_lines_elem. exists p.
  split; [done |]. simpl. by apply Hle.
Qed.

End handlers.

(** X6.  Two stock adjustments of an existing product in a row: the second
    returns, and the product holds, the twice-clamped sum.  They amount to
    the single adjustment by the sum of the two whenever the first one does
    not clamp; and adjusting by an amount and then by its opposite gives the
    world back when neither the stock nor the first result is negative. *)
Theorem adjust_stock_twice (pid : string) (a b : Z) (w : world) (p : product) :
  products w !! pid = Some p →
  let r1 := adjust_stock pid a w in
  let r2 := adjust_stock pid b r1.1 in
  r2.2 = Return (Z.max 0 (Z.max 0 (stock_quantity p + a) + b))
  ∧ products r2.1
    = <[pid := set_stock p (Z.max 0 (Z.max 0 (stock_quantity p + a) + b))]>
        (products w)
  ∧ (0 ≤ stock_quantity p + a → r2 = adjust_stock pid (a + b) w)
  ∧ (0 ≤ stock_quantity p → 0 ≤ stock_quantity p + a → b = - a → r2.1 = w).
Proof.
  intros Hp r1 r2.
  assert (∀ x, (if decide (x < 0) then 0 else x) = Z.max 0 x) as Hclamp
    by (intros x; case_decide; lia).
  assert (r2 = (set_products
                  (<[pid := set_stock p
                       (Z.max 0 (Z.max 0 (stock_quantity p + a) + b))]>
                     (products w)) w,
                Return (Z.max 0 (Z.max 0 (stock_quantity p + a) + b)))) as Hr2.
  { unfold r2, r1, adjust_stock. rewrite Hp. cbn [fst products set_products].
    rewrite lookup_insert_eq. cbn [stock_quantity set_stock].
    rewrite !Hclamp, insert_insert_eq. done. }
  rewrite Hr2. cbn [fst snd products set_products]. split_and!; [done.. | |].
  - intros H0. unfold adjust_stock. rewrite Hp, Hclamp.
    do 3 f_equal; [do 2 f_equal |]; lia.
  - intros H0 H1 ->.
    replace (Z.max 0 (Z.max 0 (stock_quantity p + a) + - a))
      with (stock_quantity p) by lia.
    rewrite set_stock_same, insert_id by done. by destruct w.
Qed.

(** An instance: seven apples off the shelf, seven back. *)
Lemma adjust_stock_twice_witness :
  let r1 := adjust_stock "prod_001" (-7) Shop.opening in
  let r2 := adjust_stock "prod_001" 7 r1.1 in
  r2.2 = Return (Z.max 0 (Z.max 0 (20 + -7) + 7))
  ∧ products r2.1
    = <["prod_001" := set_stock Shop.apple (Z.max 0 (Z.max 0 (20 + -7) + 7))]>
        (products Shop.opening)
  ∧ (0 ≤ 20 + -7 → r2 = adjust_stock "prod_001" (-7 + 7) Shop.opening)
  ∧ (0 ≤ 20 → 0 ≤ 20 + -7 → 7 = - -7 → r2.1 = Shop.opening).
Proof.
  exact (adjust_stock_twice "prod_001" (-7) 7 Shop.opening Shop.apple eq_refl).
Defined.

(** X7.  The lines of an order built by [/submit] or [/customer/submit]:
    one line for each product of the catalog with a positive posted
    quantity and no other, each with that quantity and the name and price of
    the product at that time, no product twice; the total is the sum of
    quantity times unit price over the lines; the id joins the prefix of the
    handler, the day and the posted e-mail. *)
Theorem handler_order_lines (prefix today : string) (f : form) (w : world) :
  match build_order prefix today f w with
  | Return o =>
      NoDup (product_id <$> items o)
      ∧ (∀ it, it ∈ items o
           ↔ ∃ p, products w !! product_id it = Some p
                  ∧ 0 < form_qty f (product_id it)
                  ∧ it = Item (product_id it) (name p)
                              (form_qty f (product_id it)) (price p))
      ∧ lines_total (items o) = Return (order_total o)
      ∧ order_id o = prefix +:+ today +:+ "_" +:+ form_email f
      ∧ order_date o = today
  | Raise e =>
      e = OverflowError
      ∧ lines_total (form_lines f (map_to_list (products w)))
        = Raise OverflowError
  end
  ∧ ((∀ k p, products w !! k = Some p → is_int (price p)) →
     ∃ o, build_order prefix today f w = Return o
          ∧ order_total o
            = Int (foldr Z.add 0
                     ((λ it, quantity it * whole (unit_price it))
                        <$> items o))).
Proof.
  split.
  - pose proof (build_order_cases prefix today f w) as Hcases.
    destruct (build_order prefix today f w) as [o|e]; [|done].
    destruct Hcases as [Ho Htotal]. split_and!; [| |done|by rewrite Ho..].
    + rewrite Ho. apply form_lines_NoDup.
    + intros it. rewrite Ho. apply form_lines_elem.
  - intros Hint. unfold build_order. rewrite order_lines_spec.
    rewrite lines_total_from_ints.
    + eexists. split; [done |]. by rewrite Z.add_0_l.
    + intros it (p & Hp & _ & ->)%form_lines_elem. by eapply Hint.
Qed.

(** An instance on the seeded prices 3.5 and 2.8: two apples and three
    bananas total the binary64 sum of the binary64 products. *)
Lemma total_on_seeded_prices :
  match build_order "order_" "2024-05-01" Shop.form_apples2_bananas3
                    Shop.opening with
  | Return o =>
      order_total o = Float 15.399999999999999
      ∧ lines_total (items o) = Return (Float 15.399999999999999)
  | Raise e => False
  end.
Proof. vm_compute. split; reflexivity. Qed.

(** X8.  When no posted quantity exceeds the stock of its product, an order
    handler whose total is computed succeeds, whether pre-order is ticked or
    not, and takes from every product exactly the posted quantity when it is
    positive, and nothing otherwise; when the total overflows, the handler
    raises before anything is changed. *)
Theorem handler_order_within_stock (today : string) (f : form) (w : world) :
  (∀ k p, products w !! k = Some p → form_qty f k ≤ stock_quantity p) →
  match build_order "order_" today f w with
  | Return _ =>
      ∃ ws w',
        submit today f w
        = (w', Return (Success ws
                         ("order_" +:+ today +:+ "_" +:+ form_email f)
                         ("invoice_" +:+ ("order_" +:+ today +:+ "_"
                                          +:+ form_email f) +:+ ".pdf")))
        ∧ ∀ k p, products w !! k = Some p →
            products w' !! k
            = Some (set_stock p (stock_quantity p - Z.max 0 (form_qty f k)))
  | Raise _ => submit today f w = (w, Raise OverflowError)
  end
  ∧ match build_order "cust_order_" today f w with
    | Return _ =>
        ∃ ws w',
          customer_submit today f w
          = (w', Return (Success ws
                           ("cust_order_" +:+ today +:+ "_" +:+ form_email f)
                           ("invoice_" +:+ ("cust_order_" +:+ today +:+ "_"
                                            +:+ form_email f) +:+ ".pdf")))
          ∧ ∀ k p, products w !! k = Some p →
              products w' !! k
              = Some (set_stock p (stock_quantity p - Z.max 0 (form_qty f k)))
    | Raise _ => customer_submit today f w = (w, Raise OverflowError)
    end.
Proof.
  intros Hle.
  assert (∀ prefix b o,
            build_order prefix today f w = Return o →
            ∃ ws w',
              validate_and_place_order o b w
              = (w', Return (Success ws
                               (prefix +:+ today +:+ "_" +:+ form_email f)
                               ("invoice_" +:+ (prefix +:+ today +:+ "_"
                                                +:+ form_email f) +:+ ".pdf")))
              ∧ ∀ k p, products w !! k = Some p →
                  products w' !! k
                  = Some (set_stock p
                            (stock_quantity p - Z.max 0 (form_qty f k))))
    as Hany.
  { intros prefix b o (Hid & _ & Hits & _)%build_order_returns.
    pose proof (form_lines_covered f w Hle) as Hc. rewrite <- Hits in Hc.
    destruct (order_loop_covered b _ _ [] Hc) as [ws Hloop].
    exists ws. eexists. rewrite (place_fallthrough _ _ _ _ _ Hloop), Hid.
    split; [done |]. intros k p Hp. cbn [products].
    by rewrite lookup_ship, Hp, Hits, (form_lines_demand _ _ _ _ Hp). }
  split.
  - unfold submit.
    destruct (build_order "order_" today f w) as [o|e] eqn:Ho.
    + by eapply Hany.
    + by apply build_order_raises in Ho as ->.
  - unfold customer_submit.
    destruct (build_order "cust_order_" today f w) as [o|e] eqn:Ho.
    + by eapply Hany.
    + by apply build_order_raises in Ho as ->.
Qed.

(** An instance: two apples posted to the opening shop. *)
Lemma handler_order_within_stock_witness :
  ∃ ws w',
    submit "2024-05-01" Shop.form_apples2 Shop.opening
    = (w', Return (Success ws "order_2024-05-01_ann@x.org"
                           "invoice_order_2024-05-01_ann@x.org.pdf"))
    ∧ ∀ k p, products Shop.opening !! k = Some p →
        products w' !! k
        = Some (set_stock p (stock_quantity p
                             - Z.max 0 (form_qty Shop.form_apples2 k))).
Proof.
  refine (proj1 (handler_order_within_stock "2024-05-01" Shop.form_apples2
                   Shop.opening _)).
  intros k p. unfold Shop.opening. simpl.
  rewrite lookup_insert. case_decide; [intros [= <-]; subst; vm_compute; discriminate |].
  rewrite lookup_insert. case_decide; [intros [= <-]; subst; vm_compute; discriminate |].
  by rewrite lookup_empty.
Defined.

(** X9.  A form without any positive quantity still places an order: the
    handler succeeds without warning, stores an order with no line and a
    total of 0 under the id of the day and the e-mail, writes its invoice,
    and leaves every stock level as it was. *)
Theorem empty_form_places_an_order (today : string) (f : form) (w : world) :
  (∀ k p, products w !! k = Some p → form_qty f k ≤ 0) →
  let o := Order ("cust_order_" +:+ today +:+ "_" +:+ form_email f) today
                 (form_name f) (form_email f) [] (Int 0) "norwood" in
  customer_submit today f w
  = (World (products w) (<[order_id o := o]> (orders w)) (sql_connected w)
           (daily_summary w) (pdfs w ++ [InvoicePdf o]) (stdout w),
     Return (Success [] (order_id o) ("invoice_" +:+ order_id o +:+ ".pdf"))).
Proof.
  intros Hq o.
  assert (build_order "cust_order_" today f w = Return o) as Ho.
  { unfold build_order. rewrite order_lines_spec. unfold form_lines.
    replace (filter (λ kp, 0 < form_qty f kp.1) (map_to_list (products w)))
      with (@nil (string * product)); [done |].
    symmetry. apply elem_of_nil_inv.
    intros [k p] [Hpos Hin%elem_of_map_to_list]%list_elem_of_filter.
    specialize (Hq k p Hin). simpl in Hpos. lia. }
  unfold customer_submit. rewrite Ho. by apply place_fallthrough.
Qed.

(** An instance: the form with no quantity at all. *)
Lemma empty_form_places_an_order_witness :
  (customer_submit "2024-05-01" Shop.form_nothing Shop.opening).2
  = Return (Success [] "cust_order_2024-05-01_ann@x.org"
                    "invoice_cust_order_2024-05-01_ann@x.org.pdf").
Proof.
  rewrite (empty_form_places_an_order "2024-05-01" Shop.form_nothing
             Shop.opening); [done |].
  intros k p _. simpl. lia.
Defined.

(** X10.  An order placed by the staff handler and one placed by the
    customer handler never have the same id, whatever the days and the
    e-mails, so neither can overwrite the other in the order store. *)
Theorem staff_and_customer_ids_differ (today1 today2 : string) (f1 f2 : form)
    (w1 w2 : world) (o1 o2 : order) :
  build_order "order_" today1 f1 w1 = Return o1 →
  build_order "cust_order_" today2 f2 w2 = Return o2 →
  order_id o1 ≠ order_id o2.
Proof.
  intros (-> & _)%build_order_returns (-> & _)%build_order_returns.
  discriminate.
Qed.

(** An instance: the same customer posting two apples to the staff and three
    bananas to the customer handler on the same day. *)
Lemma staff_and_customer_ids_differ_witness :
  "order_2024-05-01_ann@x.org" ≠ "cust_order_2024-05-01_ann@x.org".
Proof.
  exact (staff_and_customer_ids_differ "2024-05-01" "2024-05-01"
           Shop.form_apples2 Shop.form_bananas3 Shop.opening Shop.opening
           _ _ eq_refl eq_refl).
Defined.

(** X11.  When pre-order is not ticked and some posted quantity is positive
    and exceeds the stock of its product, the staff handler is refused: the
    error carries the stock, as it was before the call, of a product whose
    posted quantity exceeds it, and no order is stored and no invoice
    written. *)
Theorem handler_oversell (today : string) (f : form) (w : world)
    (k : string) (p : product) :
  preorder_flag f = false →
  products w !! k = Some p →
  0 < form_qty f k →
  stock_quantity p < form_qty f k →
  match build_order "order_" today f w with
  | Return _ =>
      ∃ k' p' w',
        products w !! k' = Some p'
        ∧ stock_quantity p' < form_qty f k'
        ∧ submit today f w
          = (w', Return (Error (only_available (stock_quantity p'))
                               (stock_quantity p') true))
        ∧ orders w' = orders w
        ∧ pdfs w' = pdfs w
  | Raise _ => submit today f w = (w, Raise OverflowError)
  end.
Proof.
  intros Hflag Hp Hpos Hlt. unfold submit. rewrite Hflag.
  destruct (build_order "order_" today f w) as [o|e] eqn:Ho;
    [|by apply build_order_raises in Ho as ->].
  apply build_order_returns in Ho as (_ & _ & Hits & _).
  destruct (order_loop_strict (items o) (products w) [])
    as [[Hc _] | (pre & it & post & p' & Hsplit & Hp' & Hshort & Hloop)].
  { rewrite Hits. intros it (p0 & Hp0 & _)%form_lines_elem. by eexists. }
  - exfalso.
    assert (Item k (name p) (form_qty f k) (price p) ∈ items o) as Hin.
    { rewrite Hits. apply form_lines_elem. exists p. by split_and!. }
    apply list_elem_of_split in Hin as (pre & post & Hsplit).
    destruct (Hc _ _ _ Hsplit) as (p0 & Hp0 & Hle). simpl in *.
    assert (0 ≤ demand pre k).
    { apply demand_nonneg. intros i Hi.
      assert (i ∈ items o) as Hio by (rewrite Hsplit; set_solver).
      rewrite Hits in Hio.
      apply form_lines_elem in Hio as (p1 & _ & Hpos1 & Hi1).
      rewrite Hi1. simpl. lia. }
    simplify_eq. lia.
  - assert (demand pre (product_id it) = 0) as Hzero.
    { apply demand_absent.
      pose proof (form_lines_NoDup f w) as Hnd.
      rewrite <- Hits, Hsplit, fmap_app, fmap_cons in Hnd.
      apply NoDup_app in Hnd as (_ & Hdisj & _).
      intros Hin. apply (Hdisj _ Hin). left. }
    rewrite Hzero, Z.sub_0_r in Hshort, Hloop.
    assert (it ∈ items o) as Hit by (rewrite Hsplit; set_solver).
    rewrite Hits in Hit.
    apply form_lines_elem in Hit as (p0 & Hp0 & _ & Hit).
    assert (quantity it = form_qty f (product_id it)) as Hq
      by (rewrite Hit; done).
    exists (product_id it), p'. eexists.
    unfold validate_and_place_order. rewrite Hloop.
    split_and!; [done | by rewrite <- Hq | done..].
Qed.

(** An instance: 25 apples posted against 20, pre-order not ticked. *)
Lemma handler_oversell_witness :
  ∃ k' p' w',
    products Shop.opening !! k' = Some p'
    ∧ stock_quantity p' < Shop.qty_of "prod_001" 25 k'
    ∧ submit "2024-05-01" (Form "Ann" "ann@x.org" None (Shop.qty_of "prod_001" 25))
             Shop.opening
      = (w', Return (Error (only_available (stock_quantity p'))
                           (stock_quantity p') true))
    ∧ orders w' = orders Shop.opening
    ∧ pdfs w' = pdfs Shop.opening.
Proof.
  apply (handler_oversell "2024-05-01"
           (Form "Ann" "ann@x.org" None (Shop.qty_of "prod_001" 25))
           Shop.opening "prod_001" Shop.apple); try reflexivity.
Defined.

(** * Sessions and guarded routes *)

(** X12.  A route guarded by [role_required] does nothing for a session
    whose role is not the required one: the world is unchanged, and the
    answer is the redirection to the login page when the session has no
    role and a 403 otherwise.  This holds for the staff routes [/submit] and
    [/inventory/update] and for the admin routes [/summary] and
    [/charts]. *)
Theorem guarded_routes_refuse (required : string)
    (session : gmap string string) (w : world)
    (today : string) (f : form) (pid : string) (a : Z)
    (srv : sql_server) (posted : option string) :
  session !! "role" ≠ Some required →
  let refusal :=
    Return (match session !! "role" with
            | None => Redirect "login"
            | Some _ => Abort 403
            end) in
  (required = "staff" →
   route_submit session today f w = (w, refusal)
   ∧ route_inventory_update session pid a w = (w, refusal))
  ∧ (required = "admin" →
     route_summary session srv posted today w = (w, refusal)
     ∧ route_charts session posted w = (w, refusal)).
Proof.
  intros Hrole refusal.
  assert (∀ g, role_required required session g w = (w, refusal)) as Hguard.
  { intros g. unfold role_required, refusal.
    destruct (session !! "role") as [r|]; [|done].
    case_decide; [congruence | done]. }
  split; intros ->; split; apply Hguard.
Qed.

(** An instance: an admin session on the staff routes. *)
Lemma guarded_routes_refuse_witness :
  route_submit admin_session "2024-05-01" Shop.form_apples2 Shop.opening
  = (Shop.opening, Return (Abort 403))
  ∧ route_inventory_update admin_session "prod_001" (-20) Shop.opening
    = (Shop.opening, Return (Abort 403)).
Proof.
  refine (proj1 (guarded_routes_refuse "staff" admin_session Shop.opening
                   "2024-05-01" Shop.form_apples2 "prod_001" (-20) sql_up None _)
                eq_refl).
  vm_compute. discriminate.
Defined.

(** X13.  [/login] stores whatever role is posted, without any check, and a
    guard for that role then lets the handler run; [/logout] empties the
    session, after which every guard redirects to the login page and [/]
    does too. *)
Theorem login_then_logout (role : string) (session : gmap string string)
    (g : world → world * outcome response) (w : world) :
  role_required role (login (Some role) session).1 g w = g w
  ∧ (login (Some role) session).2
    = Redirect (if decide (role = "admin") then "summary" else "index")
  ∧ role_required role (logout (login (Some role) session).1).1 g w
    = (w, Return (Redirect "login"))
  ∧ index (logout session).1 w = Redirect "login"
  ∧ login None session = (session, Render "login.html" NoContext).
Proof.
  unfold role_required, login, logout, index. cbn [fst snd].
  rewrite lookup_insert_eq, lookup_empty, decide_True by done. done.
Qed.

(** X14.  For a staff session, [/inventory/update] on a product that the
    container does not hold raises the not-found exception and changes
    nothing; on an existing product it redirects to the inventory and
    leaves the product with its stock plus the adjustment, or 0 when that
    is negative, every other product and the orders being untouched. *)
Theorem inventory_update_by_staff (session : gmap string string)
    (pid : string) (a : Z) (w : world) :
  session !! "role" = Some "staff" →
  match products w !! pid with
  | None =>
      route_inventory_update session pid a w
      = (w, Raise (CosmosResourceNotFoundError pid))
  | Some p =>
      ∃ w',
        route_inventory_update session pid a w
        = (w', Return (Redirect "inventory"))
        ∧ products w' !! pid
          = Some (set_stock p (Z.max 0 (stock_quantity p + a)))
        ∧ (∀ k, k ≠ pid → products w' !! k = products w !! k)
        ∧ orders w' = orders w ∧ pdfs w' = pdfs w
        ∧ daily_summary w' = daily_summary w
  end.
Proof.
  intros Hrole. unfold route_inventory_update, role_required, adjust_stock.
  rewrite Hrole, decide_True by done.
  destruct (products w !! pid) as [p|]; [|done].
  eexists. split; [done |]. cbn [products set_products orders pdfs daily_summary].
  rewrite lookup_insert_eq. split_and!; try done.
  - do 2 f_equal. case_decide; lia.
  - intros k Hk. by rewrite lookup_insert_ne.
Qed.

(** An instance: fifty apples too many taken off by the staff. *)
Lemma inventory_update_by_staff_witness :
  ∃ w',
    route_inventory_update staff_session "prod_001" (-70) Shop.opening
    = (w', Return (Redirect "inventory"))
    ∧ products w' !! "prod_001"
      = Some (set_stock Shop.apple (Z.max 0 (stock_quantity Shop.apple + -70)))
    ∧ (∀ k, k ≠ "prod_001" → products w' !! k = products Shop.opening !! k)
    ∧ orders w' = orders Shop.opening ∧ pdfs w' = pdfs Shop.opening
    ∧ daily_summary w' = daily_summary Shop.opening.
Proof.
  exact (inventory_update_by_staff staff_session "prod_001" (-70) Shop.opening
           eq_refl).
Defined.

(** * More on the summary engine *)

Section summary_more.

Implicit Types (d : list (string * Z)) (os : list order) (its : list item).

Lemma dict_set_keys_list d k v :
  (dict_set d k v).*1 = if decide (k ∈ d.*1) then d.*1 else d.*1 ++ [k].
Proof.
  induction d as [|[k0 v0] d IH]; [done |]. cbn [dict_set].
  destruct (decide (k0 = k)) as [->|Hne].
  - rewrite !fmap_cons. cbn [fst]. rewrite decide_True; [done | by left].
  - rewrite !fmap_cons, IH. cbn [fst].
    destruct (decide (k ∈ d.*1)) as [Hin|Hnot].
    + rewrite decide_True; [done | by right].
    + rewrite decide_False; [done |]. rewrite not_elem_of_cons. by split.
Qed.

Lemma dict_keys_NoDup_set d k v : NoDup d.*1 → NoDup (dict_set d k v).*1.
Proof.
  intros Hnd. rewrite dict_set_keys_list. case_decide; [done |].
  apply NoDup_app. split_and!; [done | | apply NoDup_singleton].
  intros x Hx ->%list_elem_of_singleton. done.
Qed.

(** The names of the tally come in the order of their first appearance. *)
Lemma tally_item_names d its :
  (fold_left tally_item its d).*1
  = fold_left (λ acc n, if decide (n ∈ acc) then acc else acc ++ [n])
              (product_name <$> its) d.*1.
Proof.
  revert d. induction its as [|it its IH]; intros d; [done |].
  cbn [fold_left]. rewrite IH, fmap_cons. cbn [fold_left].
  unfold tally_item. by rewrite dict_set_keys_list.
Qed.

Lemma tally_order_names d os :
  (fold_left tally_order os d).*1
  = fold_left (λ acc n, if decide (n ∈ acc) then acc else acc ++ [n])
              (line_names os) d.*1.
Proof.
  revert d. induction os as [|o os IH]; intros d; [done |].
  cbn [fold_left]. rewrite IH. unfold line_names. rewrite bind_cons.
  rewrite fold_left_app. unfold tally_order. by rewrite tally_item_names.
Qed.

Lemma product_totals_names os :
  (product_totals os).*1 = first_seen (line_names os).
Proof. unfold product_totals, first_seen. by rewrite tally_order_names. Qed.

(** [max] keeps the first of the candidates with the largest key. *)
Lemma max_from_first (f : string → Z) best rest :
  ∃ pre post,
    best :: rest = pre ++ max_from f best rest :: post
    ∧ (∀ k, k ∈ pre → f k < f (max_from f best rest))
    ∧ (∀ k, k ∈ post → f k ≤ f (max_from f best rest)).
Proof.
  revert best. induction rest as [|k rest IH]; intros best; cbn [max_from].
  - exists [], []. split_and!; [done | intros ? Hk..]; by apply elem_of_nil in Hk.
  - case_decide as Hlt.
    + destruct (IH k) as (pre & post & Hsplit & Hpre & Hpost).
      exists (best :: pre), post. split_and!.
      * by rewrite Hsplit.
      * intros k' [->|Hk']%elem_of_cons; [|by apply Hpre].
        pose proof (proj2 (max_from_spec f k rest) k) as Hmax.
        assert (f k ≤ f (max_from f k rest)) by (apply Hmax; left). lia.
      * done.
    + destruct (IH best) as (pre & post & Hsplit & Hpre & Hpost).
      destruct pre as [|b pre]; simpl in Hsplit.
      * injection Hsplit as Hbest Hrest. exists [], (k :: post).
        split_and!.
        -- rewrite <- Hbest at 1. simpl. by rewrite Hrest.
        -- intros ? Hk. by apply elem_of_nil in Hk.
        -- intros k' [->|Hk']%elem_of_cons; [|by apply Hpost].
           rewrite <- Hbest. lia.
      * injection Hsplit as <- Hrest. exists (best :: k :: pre), post.
        split_and!.
        -- simpl. by rewrite <- Hrest.
        -- assert (f best < f (max_from f best rest)) as Hb
             by (apply Hpre; left).
           intros k' [->|[->|Hk']%elem_of_cons]%elem_of_cons;
             [done | lia |]. apply Hpre. by right.
        -- done.
Qed.

(** No order of the day in the store: the query is empty. *)
Lemma query_items_none (m : gmap string order) day :
  (∀ k o, m !! k = Some o → order_date o ≠ day) → query_items m day = [].
Proof.
  intros Hno. apply elem_of_nil_inv. intros o [[k Hk] Hd]%query_items_elem.
  by apply (Hno k o).
Qed.

(** An order of another day does not enter the query of a day. *)
Lemma query_items_other_day (m : gmap string order) o day :
  order_date o ≠ day →
  query_items (<[order_id o := o]> m) day
  ≡ₚ query_items (delete (order_id o) m) day.
Proof.
  intros Hd. unfold query_items.
  rewrite <- (insert_delete_eq m).
  rewrite map_to_list_insert by apply lookup_delete_eq.
  rewrite fmap_cons, filter_cons. cbn [snd].
  by rewrite decide_False by done.
Qed.

End summary_more.

(** X15.  The product that a summary names is the first, in the order in
    which the product names first appear in the line items of the day, of
    those with the most units: every name that appeared earlier has
    strictly fewer units, every later one no more.  It names none exactly
    when no name appears.  (The call returns no summary only when the sum of
    the totals, which comes first, overflows.) *)
Theorem most_popular_is_first_maximum (day : string) (w : world) :
  let os := query_items (orders w) day in
  match generate_daily_summary day w with
  | Return s =>
      match most_popular_product s with
      | Some n =>
          ∃ pre post,
            first_seen (line_names os) = pre ++ n :: post
            ∧ (∀ k, k ∈ pre → units_sold k os < units_sold n os)
            ∧ (∀ k, k ∈ post → units_sold k os ≤ units_sold n os)
      | None => first_seen (line_names os) = []
      end
  | Raise e =>
      e = OverflowError ∧ py_sum (order_total <$> os) = Raise OverflowError
  end.
Proof.
  intros os. unfold generate_daily_summary. fold os.
  destruct (summarise day os) as [s|e] eqn:Hs;
    [|by apply summarise_raises in Hs].
  apply summarise_returns in Hs as (_ & _ & _ & ->). unfold most_popular.
  rewrite <- product_totals_names.
  destruct ((product_totals os).*1) as [|k rest] eqn:Hkeys; [done |].
  destruct (max_from_first (λ k0, dict_get (product_totals os) k0 0) k rest)
    as (pre & post & Hsplit & Hpre & Hpost).
  exists pre, post. split; [done |].
  split; intros k' Hk'; rewrite <- !product_totals_get; auto.
Qed.

(** X16.  When the store holds no order of a day, the summary of that day
    counts no order, no revenue (the int 0) and names no product. *)
Theorem summary_of_a_day_without_orders (day : string) (w : world) :
  (∀ k o, orders w !! k = Some o → order_date o ≠ day) →
  generate_daily_summary day w = Return (Summary day 0 (Int 0) None).
Proof.
  intros Hno. unfold generate_daily_summary.
  by rewrite (query_items_none _ _ Hno).
Qed.

(** An instance: the opening shop has no order at all. *)
Lemma summary_of_a_day_without_orders_witness :
  generate_daily_summary "2024-05-01" Shop.opening
  = Return (Summary "2024-05-01" 0 (Int 0) None).
Proof.
  apply summary_of_a_day_without_orders.
  intros k o. unfold Shop.opening. simpl. by rewrite lookup_empty.
Defined.

(** X17.  A successful placement of an order under a new id, dated another
    day, leaves the orders that the store holds for a day as they were, up
    to the order in which the query lists them: the units of every product
    name are as before, and so is the number of orders of a summary; the
    revenue is as before when the totals of the day are ints, which are
    summed exactly (a sum of floats may differ with the order of the
    listing). *)
Theorem other_day_order_keeps_summary (o : order) (b : bool) (w w' : world)
    (ws : list string) (oid inv : string) (day : string) :
  validate_and_place_order o b w = (w', Return (Success ws oid inv)) →
  order_date o ≠ day →
  orders w !! order_id o = None →
  let before := query_items (orders w) day in
  let after := query_items (orders w') day in
  after ≡ₚ before
  ∧ (∀ n, dict_get (product_totals after) n 0
          = dict_get (product_totals before) n 0)
  ∧ (∀ s s', generate_daily_summary day w = Return s →
             generate_daily_summary day w' = Return s' →
             total_orders s' = total_orders s)
  ∧ ((∀ o', o' ∈ before → is_int (order_total o')) →
     ∃ s s', generate_daily_summary day w = Return s
             ∧ generate_daily_summary day w' = Return s'
             ∧ total_orders s' = total_orders s
             ∧ total_revenue s' = total_revenue s
             ∧ total_revenue s = Int (revenue before)).
Proof.
  intros Hok Hday Hnew before after.
  apply place_success_inv in Hok as (ps & _ & -> & _).
  unfold after, before. cbn [orders].
  pose proof (query_items_other_day (orders w) o day Hday) as Hperm.
  rewrite (delete_id (orders w)) in Hperm by done.
  unfold generate_daily_summary. cbn [orders]. split_and!.
  - done.
  - intros n. rewrite !product_totals_get. by apply units_sold_perm.
  - intros s s' (_ & -> & _)%summarise_returns (_ & -> & _)%summarise_returns.
    by rewrite (Permutation_length Hperm).
  - intros Hint. rewrite !summarise_ints.
    + do 2 eexists. split_and!; [done | done | | | done]; cbn.
      * by rewrite (Permutation_length Hperm).
      * by rewrite (revenue_perm _ _ Hperm).
    + intros o' Ho'. apply Hint. by rewrite <- Hperm.
    + done.
Qed.

(** An instance: Ann's order of the first of May and the second of May. *)
Lemma other_day_order_keeps_summary_witness :
  let w' := (validate_and_place_order Shop.ann12 false Shop.opening).1 in
  let before := query_items (orders Shop.opening) "2024-05-02" in
  let after := query_items (orders w') "2024-05-02" in
  after ≡ₚ before
  ∧ (∀ n, dict_get (product_totals after) n 0
          = dict_get (product_totals before) n 0)
  ∧ (∀ s s', generate_daily_summary "2024-05-02" Shop.opening = Return s →
             generate_daily_summary "2024-05-02" w' = Return s' →
             total_orders s' = total_orders s)
  ∧ ((∀ o', o' ∈ before → is_int (order_total o')) →
     ∃ s s', generate_daily_summary "2024-05-02" Shop.opening = Return s
             ∧ generate_daily_summary "2024-05-02" w' = Return s'
             ∧ total_orders s' = total_orders s
             ∧ total_revenue s' = total_revenue s
             ∧ total_revenue s = Int (revenue before)).
Proof.
  intros w'.
  apply (other_day_order_keeps_summary Shop.ann12 false Shop.opening w'
           ["Low stock alert: Apple (8 left)"] "order_2024-05-01_ann@x.org"
           "invoice_order_2024-05-01_ann@x.org.pdf" "2024-05-02").
  - vm_compute. reflexivity.
  - simpl. discriminate.
  - reflexivity.
Defined.

(** * The analytics page *)

Section charts.

Implicit Types (d t : list (string * Z)) (os : list order) (its : list item).

Lemma sum_from l a : fold_left Z.add l a = a + foldr Z.add 0 l.
Proof.
  revert a. induction l as [|x l IH]; intros a; simpl; [lia |].
  rewrite IH. lia.
Qed.

Lemma sum_app (l1 l2 : list Z) :
  foldr Z.add 0 (l1 ++ l2) = foldr Z.add 0 l1 + foldr Z.add 0 l2.
Proof. induction l1 as [|x l1 IH]; simpl; lia. Qed.

Lemma sum_perm (l1 l2 : list Z) :
  l1 ≡ₚ l2 → foldr Z.add 0 l1 = foldr Z.add 0 l2.
Proof. induction 1; simpl; lia. Qed.

(** Setting a key moves the sum of the values by the change of that key. *)
Lemma dict_set_sum d k v :
  foldr Z.add 0 (dict_set d k v).*2 = foldr Z.add 0 d.*2 - dict_get d k 0 + v.
Proof.
  induction d as [|[k0 v0] d IH]; cbn [dict_set dict_get].
  - simpl. lia.
  - case_decide; rewrite !fmap_cons; cbn [foldr snd]; [lia |].
    rewrite IH. lia.
Qed.

Lemma tally_items_sum d its :
  foldr Z.add 0 (fold_left tally_item its d).*2
  = foldr Z.add 0 d.*2 + foldr Z.add 0 (quantity <$> its).
Proof.
  revert d. induction its as [|it its IH]; intros d; [simpl; lia |].
  cbn [fold_left]. rewrite IH, fmap_cons. cbn [foldr].
  unfold tally_item. rewrite dict_set_sum. lia.
Qed.

Lemma all_units_cons o os :
  all_units (o :: os) = foldr Z.add 0 (quantity <$> items o) + all_units os.
Proof. unfold all_units. by rewrite bind_cons, fmap_app, sum_app. Qed.

(** The three accumulators after the loop over the orders. *)
Lemma sales_series_from (acc : sales_chart) os :
  fold_left sales_point os acc
  = SalesChart
      (chart_units_sold acc + all_units os)
      (fold_left tally_order os (sales_totals acc))
      (fold_left (λ t day, dict_set t day (dict_get t day 0 + 1))
                 (order_date <$> os) (trend_totals acc)).
Proof.
  revert acc. induction os as [|o os IH]; intros acc.
  - destruct acc. simpl. unfold all_units. simpl. f_equal. lia.
  - cbn [fold_left]. rewrite IH, all_units_cons, fmap_cons.
    unfold sales_point at 1 2 3. cbn [chart_units_sold sales_totals trend_totals fold_left].
    rewrite sum_from. f_equal. lia.
Qed.

Lemma tally_orders_sum d os :
  foldr Z.add 0 (fold_left tally_order os d).*2
  = foldr Z.add 0 d.*2 + all_units os.
Proof.
  revert d. induction os as [|o os IH]; intros d.
  - unfold all_units. simpl. lia.
  - cbn [fold_left]. rewrite IH, all_units_cons. unfold tally_order.
    rewrite tally_items_sum. lia.
Qed.

(** The counter of a day after counting a list of days. *)
Lemma trend_get t (days : list string) day :
  dict_get (fold_left (λ t day, dict_set t day (dict_get t day 0 + 1)) days t)
           day 0
  = dict_get t day 0 + Z.of_nat (length (filter (λ x, x = day) days)).
Proof.
  revert t. induction days as [|x days IH]; intros t; cbn [fold_left].
  - simpl. lia.
  - rewrite IH, dict_get_set, filter_cons.
    case_decide; simplify_eq; [rewrite length_cons |]; lia.
Qed.

Lemma trend_keys t (days : list string) day :
  day ∈ (fold_left (λ t day, dict_set t day (dict_get t day 0 + 1)) days t).*1
  ↔ day ∈ t.*1 ∨ day ∈ days.
Proof.
  revert t. induction days as [|x days IH]; intros t; cbn [fold_left].
  - set_solver.
  - rewrite IH, dict_set_keys. set_solver.
Qed.

Lemma trend_NoDup t (days : list string) :
  NoDup t.*1 →
  NoDup (fold_left (λ t day, dict_set t day (dict_get t day 0 + 1)) days t).*1.
Proof.
  revert t. induction days as [|x days IH]; intros t Hnd; cbn [fold_left];
    [done |]. by apply IH, dict_keys_NoDup_set.
Qed.

Lemma trend_sum t (days : list string) :
  foldr Z.add 0
    (fold_left (λ t day, dict_set t day (dict_get t day 0 + 1)) days t).*2
  = foldr Z.add 0 t.*2 + Z.of_nat (length days).
Proof.
  revert t. induction days as [|x days IH]; intros t; cbn [fold_left].
  - simpl. lia.
  - rewrite IH, dict_set_sum, length_cons. lia.
Qed.

(** Reading every key of a dictionary without repeated keys gives its
    values. *)
Lemma dict_values_by_key d :
  NoDup d.*1 → (λ k, dict_get d k 0) <$> d.*1 = d.*2.
Proof.
  induction d as [|[k v] d IH]; [done |].
  rewrite !fmap_cons. cbn [fst snd]. intros [Hk Hnd]%NoDup_cons.
  cbn [dict_get]. rewrite decide_True by done. f_equal.
  rewrite <- (IH Hnd). apply list_fmap_ext. intros i k' Hk'.
  cbn [dict_get]. rewrite decide_False; [done |].
  intros ->. apply Hk. by eapply list_elem_of_lookup_2.
Qed.

#[global] Instance string_le_total : Total string_le.
Proof. intros a b. apply String.leb_total. Qed.

End charts.

(** X18.  On the analytics page the number of units sold is the sum of the
    values of the sales chart, both being all the units of the line items of
    the orders read; and the sales chart is the tally that the daily summary
    computes on the same orders. *)
Theorem chart_units_are_the_sales (os : list order) :
  chart_units_sold (sales_series os) = all_units os
  ∧ foldr Z.add 0 (sales_totals (sales_series os)).*2
    = chart_units_sold (sales_series os)
  ∧ sales_totals (sales_series os) = product_totals os.
Proof.
  unfold sales_series. rewrite sales_series_from.
  cbn [chart_units_sold sales_totals]. split_and!; [lia | | done].
  rewrite tally_orders_sum. simpl. lia.
Qed.

(** X19.  The trend chart of the analytics page: its days are in
    increasing order without repetition and are exactly the days of the
    orders read; the value of a day is the number of orders of that day;
    and the values add up to the number of orders. *)
Theorem chart_trend_counts_orders (os : list order) :
  let t := trend_totals (sales_series os) in
  let days := sorted t.*1 in
  Sorted string_le days
  ∧ NoDup days
  ∧ (∀ day, day ∈ days ↔ ∃ o, o ∈ os ∧ order_date o = day)
  ∧ (∀ day, dict_get t day 0
            = Z.of_nat (length (filter (λ o, order_date o = day) os)))
  ∧ foldr Z.add 0 ((λ day, dict_get t day 0) <$> days) = Z.of_nat (length os).
Proof.
  intros t days.
  assert (t = fold_left (λ t day, dict_set t day (dict_get t day 0 + 1))
                        (order_date <$> os) []) as Ht.
  { unfold t, sales_series. by rewrite sales_series_from. }
  assert (days ≡ₚ t.*1) as Hperm by apply merge_sort_Permutation.
  assert (NoDup t.*1) as Hnd.
  { rewrite Ht. apply trend_NoDup. constructor. }
  split_and!.
  - apply Sorted_merge_sort, _.
  - by rewrite Hperm.
  - intros day. rewrite Hperm, Ht, trend_keys.
    split; [intros [Hin|Hin] | intros (o & Ho & <-)].
    + by apply elem_of_nil in Hin.
    + apply list_elem_of_fmap in Hin as (o & -> & Ho). by exists o.
    + right. by apply list_elem_of_fmap_2.
  - intros day. rewrite Ht, trend_get. cbn [dict_get].
    rewrite Z.add_0_l. f_equal.
    clear. induction os as [|o os' IH]; [done |].
    rewrite fmap_cons, !filter_cons.
    case_decide; [rewrite !length_cons |]; by rewrite IH.
  - rewrite (sum_perm _ ((λ day, dict_get t day 0) <$> t.*1))
      by by apply fmap_Permutation.
    rewrite dict_values_by_key by done.
    rewrite Ht, trend_sum, length_fmap. simpl. lia.
Qed.

(** X20.  The stock chart of the analytics page lists, product by product
    in the order of the query, the name, the stock level and the colour of
    that level: red under 5, orange under 10, green from 10 on.  The count
    of low stock is the number of red bars; and a level is green exactly
    when the order engine raises no low-stock alert for it. *)
Theorem chart_stock_colours (catalog : list (string * product)) :
  let st := stock_series catalog in
  stock_labels st = name <$> catalog.*2
  ∧ stock_values st = stock_quantity <$> catalog.*2
  ∧ stock_colors st = stock_color <$> stock_values st
  ∧ low_stock_count st
    = Z.of_nat (length (filter (λ c, c = "#c62828") (stock_colors st)))
  ∧ low_stock_count st
    = Z.of_nat (length (filter (λ q, q < 5) (stock_values st)))
  ∧ ∀ p ws, stock_color (stock_quantity p) = "#2e7d32" ↔ alert p ws = ws.
Proof.
  intros st.
  assert (∀ acc,
            fold_left stock_point catalog acc
            = StockChart
                (stock_labels acc ++ (name <$> catalog.*2))
                (stock_values acc ++ (stock_quantity <$> catalog.*2))
                (stock_colors acc
                 ++ (stock_color <$> (stock_quantity <$> catalog.*2)))
                (low_stock_count acc
                 + Z.of_nat (length (filter (λ q, q < 5)
                                       (stock_quantity <$> catalog.*2)))))
    as Hfold.
  { induction catalog as [|[k p] catalog IH]; intros acc.
    - destruct acc. simpl. by rewrite !app_nil_r, Z.add_0_r.
    - cbn [fold_left]. rewrite IH. rewrite !fmap_cons, filter_cons.
      cbn [snd]. unfold stock_point, stock_color. cbn [snd].
      repeat case_decide; try lia;
        cbn [stock_labels stock_values stock_colors low_stock_count];
        rewrite <- !app_assoc; f_equal; rewrite ?length_cons; simpl; lia. }
  unfold st, stock_series. rewrite Hfold.
  cbn [stock_labels stock_values stock_colors low_stock_count app].
  split_and!; try done.
  - rewrite Z.add_0_l. f_equal.
    generalize (stock_quantity <$> catalog.*2). clear. intros l.
    induction l as [|q l IH]; [done |].
    rewrite fmap_cons, !filter_cons. unfold stock_color at 1.
    repeat case_decide; simplify_eq; try lia; rewrite ?length_cons;
      by rewrite IH.
  - intros p ws. unfold stock_color, alert. split.
    + repeat case_decide; try done; lia.
    + repeat case_decide; try done; try lia.
      all: intros Heq%(f_equal length); rewrite length_app in Heq;
        simpl in Heq; lia.
Qed.

(** * More on storing summaries *)

Section summary_store_more.

Implicit Types (srv : sql_server) (s : summary) (w : world).



End summary_store_more.



(** X22.  The SQL connection is made once: when a connection is already
    there, a call never tries to connect, so what the server would answer
    to a connection attempt has no effect, and the connection is still
    there afterwards. *)
Theorem connection_is_made_once (srv : sql_server) (s : summary) (w : world) :
  sql_connected w = true →
  store_summary srv s w
  = store_summary (SqlServer None (execute_error srv) (commit_error srv)) s w
  ∧ sql_connected (store_summary srv s w).1 = true.
Proof.
  intros Hconn. unfold store_summary, store_summary_try, get_sql_cursor.
  rewrite Hconn. cbn [execute_error commit_error].
  destruct (execute_error srv), (commit_error srv); simpl; by rewrite ?Hconn.
Qed.

(** An instance: after a first successful call, a server that refuses new
    connections. *)
Lemma connection_is_made_once_witness :
  let w1 := (store_summary sql_up Shop.noon Shop.opening).1 in
  store_summary Shop.sql_down Shop.evening w1
  = store_summary (SqlServer None None None) Shop.evening w1
  ∧ sql_connected (store_summary Shop.sql_down Shop.evening w1).1 = true.
Proof.
  exact (connection_is_made_once Shop.sql_down Shop.evening
           (store_summary sql_up Shop.noon Shop.opening).1 eq_refl).
Defined.



(** X24.  The two summary pages.  Both compute the summary of the posted
    day (of today when no day or an empty one is posted); when the sum of
    the totals overflows, both raise and nothing is changed.  Otherwise the
    public [/customer/summary] shows the summary with the orders of the day,
    and [/summary], for an admin session, stores it and changes neither
    products nor orders: it shows the same page with the SQL write reported
    as done exactly when the write and the artifact call that follows it
    went through; with the write reported as not done when something was
    raised there and the second artifact call returns; in both cases the
    artifact is written; and it raises what the second artifact call
    raises. *)
Theorem summary_pages (session : gmap string string) (srv : sql_server)
    (wr : pdf_writer) (posted : option string) (today : string) (w : world) :
  session !! "role" = Some "admin" →
  let day := selected_or_today posted today in
  let r := route_summary_with session srv wr posted today w in
  (posted = None ∨ posted = Some "" → day = today)
  ∧ match generate_daily_summary day w with
    | Raise e =>
        e = OverflowError
        ∧ r = (w, Raise OverflowError)
        ∧ route_customer_summary posted today w = Raise OverflowError
    | Return s =>
        let page saved :=
          Render "summary.html"
                 (SummaryView s (query_items (orders w) day) (Some saved)
                              day) in
        date s = day
        ∧ route_customer_summary posted today w
          = Return (Render "customer_summary.html"
                      (SummaryView s (query_items (orders w) day) None day))
        ∧ r.1 = (store_summary_with srv wr s w).1
        ∧ products r.1 = products w ∧ orders r.1 = orders w
        ∧ (r.2 = Return (page true)
           ↔ sql_succeeds srv w = true ∧ in_try wr = None)
        ∧ (r.2 = Return (page false)
           ↔ (sql_succeeds srv w = false ∨ in_try wr ≠ None)
             ∧ in_except wr = None)
        ∧ (∀ e, r.2 = Raise e
                ↔ (sql_succeeds srv w = false ∨ in_try wr ≠ None)
                  ∧ ∃ text, in_except wr = Some text ∧ e = PdfError text)
        ∧ (∀ saved, r.2 = Return (page saved) →
             pdfs r.1 = pdfs w ++ [SummaryPdf s])
        ∧ (∀ e, r.2 = Raise e → pdfs r.1 = pdfs w)
    end.
Proof.
  intros Hrole day r. split; [by intros [->| ->] |].
  unfold r, route_summary_with, route_customer_summary, role_required.
  clear r. rewrite Hrole, decide_True by done. fold day.
  unfold generate_daily_summary.
  destruct (summarise day (query_items (orders w) day)) as [s|e] eqn:Hs;
    [|by apply summarise_raises in Hs as [-> _]].
  apply summarise_returns in Hs as (Hdate & _).
  destruct (store_summary_with_outcomes srv wr s w)
    as (Hps & Hos & _ & Htrue & Htrue' & Hfalse & Hfalse' & Hraise & Hraise').
  destruct (store_summary_with srv wr s w) as [w' [[]|e]] eqn:Hst;
    cbn [fst snd] in *; rewrite ?Hos.
  - split_and!; try done.
    + rewrite <- Htrue. naive_solver.
    + rewrite <- Hfalse. naive_solver.
    + intros e. rewrite <- Hraise. naive_solver.
    + intros _ _. by apply Htrue'.
  - split_and!; try done.
    + rewrite <- Htrue. naive_solver.
    + rewrite <- Hfalse. naive_solver.
    + intros e. rewrite <- Hraise. naive_solver.
    + intros _ _. by apply Hfalse'.
  - split_and!; try done.
    + rewrite <- Htrue. naive_solver.
    + rewrite <- Hfalse. naive_solver.
    + intros e'. rewrite <- Hraise. naive_solver.
    + intros e' He'. by destruct (Hraise' e).
Qed.

(** An instance: the admin opens the page on the opening shop, the server
    up; the artifact call that follows the commit fails, the second one
    returns: the row is in the table and the page reports the write as not
    done. *)
Lemma summary_pages_witness :
  let wr := PdfWriter (Some "disk full") None in
  let r := route_summary_with admin_session sql_up wr None "2024-05-01"
             Shop.opening in
  let s := Summary "2024-05-01" 0 (Int 0) None in
  r.2 = Return (Render "summary.html"
                       (SummaryView s [] (Some false) "2024-05-01"))
  ∧ daily_summary r.1 = [s]
  ∧ pdfs r.1 = [SummaryPdf s]
  ∧ (sql_succeeds sql_up Shop.opening = false ∨ in_try wr ≠ None)
  ∧ in_except wr = None.
Proof.
  intros wr r s.
  pose proof (summary_pages admin_session sql_up wr None "2024-05-01"
                Shop.opening eq_refl) as [_ H].
  change (generate_daily_summary (selected_or_today None "2024-05-01")
            Shop.opening) with (Return s) in H.
  destruct H as (_ & _ & _ & _ & _ & _ & Hfalse & _ & Hpdf & _).
  assert (r.2 = Return (Render "summary.html"
                          (SummaryView s [] (Some false) "2024-05-01")))
    as Hr by reflexivity.
  split; [exact Hr |]. split; [reflexivity |].
  split; [exact (Hpdf false Hr) |]. exact (proj1 Hfalse Hr).
Defined.
